(** * Uniconnect: event registration, attendance and reviews

    A shallow embedding of the route handlers of the events router
    (register, unregister, attendance, review) and of the stand-alone
    event-registrations router, with the MongoDB collections they read and
    write modelled as finite maps (documents by [_id]) and, for the
    registration collection, as a list in insertion order.

    Conventions of the embedding:
    - an [ObjectId] is represented by its [toString()]: 24 hexadecimal digits;
    - the review handler, the review listing and the stand-alone registration
      endpoint take the strings of the request and cast them to ObjectIds
      ([cast]); the other handlers are entered with the ObjectId that their
      route parameter has been cast to;
    - a [Date] is a number of milliseconds; every [new Date()] of one request
      reads the same clock value [now];
    - store operations themselves ([findById], [save], [findOne],
      [findByIdAndUpdate]) succeed; the exceptions that the handlers' own
      code raises (reading a property of [null], reading an undeclared
      variable) are modelled, together with the [catch] blocks they reach;
    - [verifyToken] has accepted the request and supplied [req.user]. *)

From Stdlib Require Import ZArith String Ascii.
From stdpp Require Import gmap strings list fin_maps.

Local Open Scope string_scope.
Local Open Scope list_scope.
Local Open Scope Z_scope.

Abbreviation ObjectId := string (only parsing).
Abbreviation Date := Z (only parsing).

(** ** JavaScript values *)

(** Truthiness of a number and of a string. *)
Definition truthy_num (n : Z) : bool := negb (n =? 0).
Definition truthy_str (x : string) : bool := negb (String.eqb x "").

(** [a || b] on two optional numbers ([None] is [undefined]). *)
Definition or_num (a b : option Z) : option Z :=
  match a with
  | Some n => if truthy_num n then a else b
  | None => b
  end.

(** The outcome of an expression that may throw; [Throw] carries
    [error.name]. *)
Inductive Js (A : Type) : Type :=
| Ok (a : A)
| Throw (name : string).
Arguments Ok {A} a.
Arguments Throw {A} name.

Definition is_hex (c : ascii) : bool :=
  let n := nat_of_ascii c in
  ((48 <=? n) && (n <=? 57))%nat || ((97 <=? n) && (n <=? 102))%nat.

(** What [ObjectId.prototype.toString()] returns: 24 lower-case hexadecimal
    digits. *)
Definition is_ObjectId (x : string) : bool :=
  (String.length x =? 24)%nat && forallb is_hex (list_ascii_of_string x).

(** Mongoose's cast of a string to an ObjectId, as [findById] applies it to
    a route parameter and [save] to a field of a new document: a string of
    24 hexadecimal digits in either case is accepted and denotes the id with
    the lower-case digits; any other string raises a CastError. *)
Definition is_hex_any (c : ascii) : bool :=
  let n := nat_of_ascii c in
  is_hex c || ((65 <=? n) && (n <=? 70))%nat.

Definition lower_digit (c : ascii) : ascii :=
  let n := nat_of_ascii c in
  if ((65 <=? n) && (n <=? 70))%nat then ascii_of_nat (n + 32) else c.

Fixpoint lower (x : string) : string :=
  match x with
  | EmptyString => EmptyString
  | String c x' => String (lower_digit c) (lower x')
  end.

Definition cast (x : string) : option ObjectId :=
  if (String.length x =? 24)%nat && forallb is_hex_any (list_ascii_of_string x)
  then Some (lower x)
  else None.

(** ** Documents

    The Mongoose schemas (models/Event, models/User, models/Club,
    models/University, models/EventRegistration) are not among the sources.
    Each record below holds the fields that the handlers read or write. *)

Module Attendee.
(** Modelled from the spec: the schema of an embedded attendee is missing;
    the data model gives it a user reference and an attended flag (default
    false), and every handler that creates one writes [{ user: _id }]. *)
Record t := mk { user : ObjectId; attended : bool }.

(** [attendee.toString()] on the embedded document. An embedded document
    has no [toString] of its own that would return an id: Mongoose's
    [Document.prototype.toString] prints the document's fields as an object
    literal. The text below stands for that print-out; the proofs use only
    that it is longer than the 24 digits of an id. *)
Definition toString (a : t) : string :=
  "{ user: new ObjectId('" +:+ user a +:+ "'), attended: "
    +:+ (if attended a then "true" else "false") +:+ " }".
End Attendee.

Module Review.
(** Modelled from the spec: the schema of an embedded review is missing; the
    data model gives it a user reference, a rating and a comment. *)
Record t := mk { user : ObjectId; rating : Z; comment : string }.
End Review.

Module Club.
(** Modelled from the spec: the Club schema is missing; the handlers read
    only its president. *)
Record t := mk { president : option ObjectId }.
End Club.

Module Event.
(** Modelled from the spec: the Event schema is missing. [capacity] is the
    legacy field of the specification, [maxAttendees] the field that event
    creation writes; an absent optional field is [None] ([undefined]), an
    absent title is the empty string. *)
Record t := mk {
  title : string;
  club : option ObjectId;
  university : option ObjectId;
  startDate : Date;
  isRegistrationRequired : bool;
  registrationDeadline : option Date;
  capacity : option Z;
  maxAttendees : option Z;
  attendees : list Attendee.t;
  reviews : list Review.t }.

Definition with_attendees (l : list Attendee.t) (e : t) : t :=
  mk (title e) (club e) (university e) (startDate e)
     (isRegistrationRequired e) (registrationDeadline e) (capacity e)
     (maxAttendees e) l (reviews e).

Definition with_reviews (l : list Review.t) (e : t) : t :=
  mk (title e) (club e) (university e) (startDate e)
     (isRegistrationRequired e) (registrationDeadline e) (capacity e)
     (maxAttendees e) (attendees e) l.

Definition with_maxAttendees (m : option Z) (e : t) : t :=
  mk (title e) (club e) (university e) (startDate e)
     (isRegistrationRequired e) (registrationDeadline e) (capacity e)
     m (attendees e) (reviews e).
End Event.

Module Attended.
(** Modelled from the spec: an element of a user's [eventsAttended], with
    the two fields that the first register handler pushes. *)
Record t := mk { event : ObjectId; attendedDate : Date }.
End Attended.

Module User.
(** Modelled from the spec: the User schema is missing; the handlers read
    the name and the university and update [eventsAttended]; [role] is the
    role that the identity provider reports. *)
Record t := mk {
  name : string;
  role : string;
  university : option ObjectId;
  eventsAttended : list Attended.t }.

Definition with_eventsAttended (l : list Attended.t) (u : t) : t :=
  mk (name u) (role u) (university u) l.
End User.

Module EventRegistration.
(** Modelled from the spec: the EventRegistration schema is missing; the
    fields are those of the specification's Registration. The stand-alone
    endpoint sets only [event] and [user]. *)
Record t := mk {
  event : ObjectId;
  eventTitle : option string;
  user : ObjectId;
  studentName : option string;
  university : option ObjectId;
  universityName : option string;
  registeredAt : option Date }.
End EventRegistration.

(** ** The database *)

Record Db := mkDb {
  events : gmap string Event.t;
  users : gmap string User.t;
  clubs : gmap string Club.t;
  universities : gmap string string;      (* _id ↦ name *)
  registrations : list EventRegistration.t }.

Definition save_event (id : ObjectId) (e : Event.t) (s : Db) : Db :=
  mkDb (<[id := e]> (events s)) (users s) (clubs s) (universities s)
       (registrations s).

Definition update_user (f : User.t → User.t) (uid : ObjectId) (s : Db) : Db :=
  mkDb (events s) (alter f uid (users s)) (clubs s) (universities s)
       (registrations s).

Definition save_registration (r : EventRegistration.t) (s : Db) : Db :=
  mkDb (events s) (users s) (clubs s) (universities s)
       (registrations s ++ [r]).

(** [.populate('university', 'name')]: the referenced document, or [null]. *)
Definition populate_university (s : Db) (ref : option ObjectId)
  : option (ObjectId * string) :=
  match ref with
  | Some i => match universities s !! i with
              | Some n => Some (i, n)
              | None => None
              end
  | None => None
  end.

Definition populate_club (s : Db) (ref : option ObjectId) : option Club.t :=
  match ref with
  | Some i => clubs s !! i
  | None => None
  end.

(** [EventRegistration.findOne({ event, user })] as a test. *)
Definition matches (id uid : ObjectId) (r : EventRegistration.t) : bool :=
  String.eqb (EventRegistration.event r) id
  && String.eqb (EventRegistration.user r) uid.

Definition existingRegistration (s : Db) (id uid : ObjectId) : bool :=
  existsb (matches id uid) (registrations s).

(** ** Responses *)

Record Response := Resp { status : Z; message : string }.

Definition event_not_found : Response := Resp 404 "Event not found".
Definition registration_not_required : Response :=
  Resp 400 "Registration is not required for this event".
Definition deadline_has_passed : Response :=
  Resp 400 "Registration deadline has passed".
Definition full_capacity : Response := Resp 400 "Event is at full capacity".
Definition registered_successfully : Response :=
  Resp 201 "Registered successfully".
Definition must_attend : Response :=
  Resp 400 "You must attend the event before leaving a review".
Definition already_reviewed : Response :=
  Resp 400 "You already reviewed this event".
Definition review_added : Response := Resp 200 "Review added successfully".

(** The [catch (error)] block shared by both register handlers. *)
Definition register_catch (name : string) : Response :=
  if String.eqb name "ValidationError"
  then Resp 400 "Invalid registration data."
  else Resp 500 "Registration failed. Please try again.".

(** ** POST /api/events/:id/register *)

(** [event.registrationDeadline && new Date() > event.registrationDeadline] *)
Definition deadline_passed (now : Date) (event : Event.t) : bool :=
  match Event.registrationDeadline event with
  | Some deadline => now >? deadline
  | None => false
  end.

(** [capacity && event.attendees.length >= capacity] *)
Definition at_capacity (capacity : option Z) (event : Event.t) : bool :=
  match capacity with
  | Some c => truthy_num c && (Z.of_nat (length (Event.attendees event)) >=? c)
  | None => false
  end.

(** [event.attendees.some(a => a.user.toString() === req.user._id.toString())] *)
Definition isRegistered (uid : ObjectId) (event : Event.t) : bool :=
  existsb (λ a, String.eqb (Attendee.user a) uid) (Event.attendees event).

(** [event.attendees.push({ user: req.user._id })]; [attended] takes its
    default, [false]. *)
Definition push_attendee (uid : ObjectId) (event : Event.t) : Event.t :=
  Event.with_attendees (Event.attendees event ++ [Attendee.mk uid false]) event.

(** [$push: { eventsAttended: { event, attendedDate } }] *)
Definition push_eventsAttended (id : ObjectId) (now : Date) (u : User.t)
  : User.t :=
  User.with_eventsAttended (User.eventsAttended u ++ [Attended.mk id now]) u.

(** [x && x.name], where a falsy value is represented by the empty string. *)
Definition and_name (x : option (ObjectId * string)) : string :=
  match x with
  | Some (_, n) => n
  | None => ""
  end.

(** The resolution of [universityName], identical in both handlers. [user]
    is the result of [User.findById(req.user._id)]; it is only dereferenced
    when the event's own university has no usable name. *)
Definition resolve_universityName (s : Db) (event : Event.t)
    (user : option User.t) : Js string :=
  let event_university := populate_university s (Event.university event) in
  if truthy_str (and_name event_university) then Ok (and_name event_university)
  else
    match user with
    | None => Throw "TypeError"
    | Some usr =>
        let user_university := populate_university s (User.university usr) in
        if truthy_str (and_name user_university)
        then Ok (and_name user_university)
        else
          match event_university with
          | None => Throw "TypeError"
          | Some (i, _) =>
              match universities s !! i with
              | Some n => Ok n
              | None => Ok "Unknown University"
              end
          end
    end.

(** [new EventRegistration({ ... })]: the object literal reads [user.name]
    and [user.university._id]. *)
Definition new_registration (s : Db) (id : ObjectId) (event : Event.t)
    (uid : ObjectId) (user : option User.t) (universityName : string)
    (now : Date) : Js EventRegistration.t :=
  match user with
  | None => Throw "TypeError"
  | Some usr =>
      match populate_university s (User.university usr) with
      | None => Throw "TypeError"
      | Some (i, _) =>
          Ok (EventRegistration.mk id
                (Some (if truthy_str (Event.title event)
                       then Event.title event else "Unknown Event"))
                uid (Some (User.name usr)) (Some i) (Some universityName)
                (Some now))
      end
  end.

(** The first handler registered for the route (the one Express runs). The
    Registration-Store check comes after the event and the user have been
    written. The final [res.status(201).json({ message, registration })]
    reads [registration], which is declared with [const] inside the inner
    [try] block and is not in scope there: building the body throws a
    ReferenceError, and the outer [catch] answers 500. *)
Definition register1 (s : Db) (now : Date) (id uid : ObjectId)
  : Response * Db :=
  match events s !! id with
  | None => (event_not_found, s)
  | Some event =>
      if negb (Event.isRegistrationRequired event)
      then (registration_not_required, s)
      else if deadline_passed now event then (deadline_has_passed, s)
      else if at_capacity (Event.capacity event) event then (full_capacity, s)
      else if isRegistered uid event
      then (Resp 400 "You are already registered for this event", s)
      else
        let event := push_attendee uid event in
        let s := save_event id event s in
        let s := update_user (push_eventsAttended id now) uid s in
        let user := users s !! uid in
        match resolve_universityName s event user with
        | Throw e => (register_catch e, s)
        | Ok universityName =>
            if existingRegistration s id uid
            then (Resp 400 "You are already registered for this event (eventregistrations).", s)
            else
              match new_registration s id event uid user universityName now with
              | Throw _ => (Resp 500 "Failed to save registration.", s)
              | Ok registration =>
                  (register_catch "ReferenceError",
                   save_registration registration s)
              end
        end
  end.

(** The second handler registered for the same route. *)
Definition register2 (s : Db) (now : Date) (id uid : ObjectId)
  : Response * Db :=
  match events s !! id with
  | None => (event_not_found, s)
  | Some event =>
      if negb (Event.isRegistrationRequired event)
      then (registration_not_required, s)
      else if deadline_passed now event then (deadline_has_passed, s)
      else
        let capacity := or_num (Event.maxAttendees event) (Event.capacity event) in
        if at_capacity capacity event then (full_capacity, s)
        else if isRegistered uid event
        then (Resp 409 "You have already registered for this event.", s)
        else if existingRegistration s id uid
        then (Resp 409 "You have already registered for this event.", s)
        else
          let event := push_attendee uid event in
          let s := save_event id event s in
          let user := users s !! uid in
          match resolve_universityName s event user with
          | Throw e => (register_catch e, s)
          | Ok universityName =>
              match new_registration s id event uid user universityName now with
              | Throw e => (register_catch e, s)
              | Ok registration =>
                  (registered_successfully, save_registration registration s)
              end
          end
  end.

(** ** POST /api/events/:id/unregister *)

(** [$pull: { eventsAttended: { event: event._id } }] *)
Definition pull_eventsAttended (id : ObjectId) (u : User.t) : User.t :=
  User.with_eventsAttended
    (List.filter (λ x, negb (String.eqb (Attended.event x) id))
                 (User.eventsAttended u)) u.

(** The filter compares [attendee.toString()], the printed embedded
    document, with the caller's id. *)
Definition unregister (s : Db) (now : Date) (id uid : ObjectId)
  : Response * Db :=
  match events s !! id with
  | None => (event_not_found, s)
  | Some event =>
      if now >=? Event.startDate event
      then (Resp 400 "Cannot unregister from an event that has already started", s)
      else
        let event :=
          Event.with_attendees
            (List.filter
               (λ attendee, negb (String.eqb (Attendee.toString attendee) uid))
               (Event.attendees event))
            event in
        let s := save_event id event s in
        let s := update_user (pull_eventsAttended id) uid s in
        (Resp 200 "Successfully unregistered from the event", s)
  end.

(** ** PUT /api/events/:id/attendees/:userId/attendance *)

(** [event.club?.president?.toString() !== req.user._id.toString()] *)
Definition not_president (club : option Club.t) (caller : ObjectId) : bool :=
  match club with
  | Some c => match Club.president c with
              | Some p => negb (String.eqb p caller)
              | None => true
              end
  | None => true
  end.

(** [attendees.find(a => a?.user?.toString() === userId)], then
    [attendee.attended = attended] on the element found. *)
Fixpoint mark (userId : ObjectId) (attended : bool) (l : list Attendee.t)
  : option (list Attendee.t) :=
  match l with
  | [] => None
  | a :: l' =>
      if String.eqb (Attendee.user a) userId
      then Some (Attendee.mk (Attendee.user a) attended :: l')
      else match mark userId attended l' with
           | Some l'' => Some (a :: l'')
           | None => None
           end
  end.

Definition markAttendance (s : Db) (caller role : string)
    (id userId : ObjectId) (attended : bool) : Response * Db :=
  match events s !! id with
  | None => (event_not_found, s)
  | Some event =>
      if not_president (populate_club s (Event.club event)) caller
         && negb (String.eqb role "Administrator")
      then (Resp 403 "Not authorized to mark attendance for this event", s)
      else
        match mark userId attended (Event.attendees event) with
        | None => (Resp 404 "Attendee not found in this event", s)
        | Some l => (Resp 200 "", save_event id (Event.with_attendees l event) s)
        end
  end.

(** ** POST /api/events/:id/review (the handler behind [verifyToken]) *)

Definition has_attended (uid : ObjectId) (event : Event.t) : bool :=
  existsb (λ a, String.eqb (Attendee.user a) uid && Attendee.attended a)
          (Event.attendees event).

Definition alreadyReviewed (uid : ObjectId) (event : Event.t) : bool :=
  existsb (λ r, String.eqb (Review.user r) uid) (Event.reviews event).

(** [id] is [req.params.id] as it comes in the URL. A parameter that cannot
    be cast makes [Event.findById] throw, and the [catch] answers 500. *)
Definition submitReview (s : Db) (id : string) (uid : ObjectId) (rating : Z)
    (comment : string) : Response * Db :=
  match cast id with
  | None => (Resp 500 "Server error", s)
  | Some _id =>
      match events s !! _id with
      | None => (event_not_found, s)
      | Some event =>
          if negb (has_attended uid event) then (must_attend, s)
          else if alreadyReviewed uid event then (already_reviewed, s)
          else
            let event :=
              Event.with_reviews
                (Event.reviews event ++ [Review.mk uid rating comment])
                event in
            (review_added, save_event _id event s)
      end
  end.

(** ** POST /api/event-registrations *)

(** [!x] on a body field that is a string or [undefined]. *)
Definition missing (x : option string) : bool :=
  match x with
  | Some v => negb (truthy_str v)
  | None => true
  end.

(** [eventId] and [userId] are the fields of [req.body]. The new document
    holds them cast to ObjectIds; when one of them cannot be cast,
    [registration.save()] is rejected and the [catch] answers 500. *)
Definition createRegistration (s : Db) (eventId userId : option string)
  : Response * Db :=
  if missing eventId || missing userId
  then (Resp 400 "Event ID and User ID are required.", s)
  else
    match eventId ≫= cast, userId ≫= cast with
    | Some e, Some u =>
        (Resp 201 "Registration saved successfully.",
         save_registration
           (EventRegistration.mk e None u None None None None) s)
    | _, _ => (Resp 500 "Server error", s)
    end.

(** ** The two register handlers side by side *)

Inductive Handler := First | Second.

Definition register (h : Handler) : Db → Date → ObjectId → ObjectId → Response * Db :=
  match h with
  | First => register1
  | Second => register2
  end.

(** The capacity each handler reads. *)
Definition capacity_read (h : Handler) (event : Event.t) : option Z :=
  match h with
  | First => Event.capacity event
  | Second => or_num (Event.maxAttendees event) (Event.capacity event)
  end.

(** The answer of each handler to a caller found in [event.attendees]. *)
Definition already_registered (h : Handler) : Response :=
  match h with
  | First => Resp 400 "You are already registered for this event"
  | Second => Resp 409 "You have already registered for this event."
  end.

(** A call has registered [uid] for [id] when it has added one record for
    that pair to the Registration Store. This is the completed registration;
    the second handler answers 201 exactly then, the first handler cannot
    answer 201 at all. *)
Definition registration_created (s s' : Db) (id uid : ObjectId) : Prop :=
  ∃ r, registrations s' = registrations s ++ [r] ∧ matches id uid r = true.

(** A sequence of requests served one after the other. *)
Fixpoint serve (h : Handler) (calls : list (Date * ObjectId * ObjectId))
    (s : Db) : Db :=
  match calls with
  | [] => s
  | (now, id, uid) :: calls' => serve h calls' (register h s now id uid).2
  end.

(** Every event with a (truthy) effective capacity holds at most that many
    attendees. *)
Definition within_capacity (s : Db) : Prop :=
  ∀ id ev C,
    events s !! id = Some ev →
    or_num (Event.maxAttendees ev) (Event.capacity ev) = Some C →
    truthy_num C = true →
    Z.of_nat (length (Event.attendees ev)) <= C.

(** The claims of the specification about reviews, in its own words. *)
Definition attended_by (uid : ObjectId) (ev : Event.t) : Prop :=
  ∃ a, a ∈ Event.attendees ev ∧ Attendee.user a = uid
       ∧ Attendee.attended a = true.

Definition reviewed_by (uid : ObjectId) (ev : Event.t) : Prop :=
  ∃ r, r ∈ Event.reviews ev ∧ Review.user r = uid.

(** ** Sample data *)

Definition alice : ObjectId := "64b000000000000000000001".
Definition bob : ObjectId := "64b000000000000000000002".
Definition fair : ObjectId := "64e000000000000000000001".
Definition campus : ObjectId := "64c000000000000000000001".
Definition chess : ObjectId := "64d000000000000000000001".

Definition student (n : string) : User.t :=
  User.mk n "Student" (Some campus) [].

(** An event at time 1000 that requires registration and has no deadline. *)
Definition fair_event (capacity maxAttendees : option Z)
    (l : list Attendee.t) : Event.t :=
  Event.mk "Fair" (Some chess) (Some campus) 1000 true None capacity
    maxAttendees l [].

Definition db (e : Event.t) (regs : list EventRegistration.t) : Db :=
  mkDb {[fair := e]} {[alice := student "Alice"; bob := student "Bob"]}
       {[chess := Club.mk (Some bob)]} {[campus := "Campus"]} regs.

(** Alice's record in the Registration Store for the fair. *)
Definition alice_record : EventRegistration.t :=
  EventRegistration.mk fair (Some "Fair") alice (Some "Alice") (Some campus)
    (Some "Campus") (Some 1).

(** Bob presides over the club of the fair; he marks Alice as having
    attended. *)
Definition attended_fair : Db :=
  (markAttendance (db (fair_event None None [Attendee.mk alice false]) [])
     bob "Club Admin" fair alice true).2.

(** ** DELETE /api/events/:id/attendees/:userId *)

(** [attendees.findIndex(a => a?.user?.toString() === userId)]; [None]
    stands for -1. *)
Fixpoint findIndex (userId : ObjectId) (l : list Attendee.t) : option nat :=
  match l with
  | [] => None
  | a :: l' =>
      if String.eqb (Attendee.user a) userId then Some 0%nat
      else S <$> findIndex userId l'
  end.

(** [event.attendees.splice(attendeeIndex, 1)] is [delete i] on the list. *)
Definition removeAttendee (s : Db) (caller role : string)
    (id userId : ObjectId) : Response * Db :=
  match events s !! id with
  | None => (event_not_found, s)
  | Some event =>
      if not_president (populate_club s (Event.club event)) caller
         && negb (String.eqb role "Administrator")
      then (Resp 403 "Not authorized to remove attendees from this event", s)
      else
        match findIndex userId (Event.attendees event) with
        | None => (Resp 404 "Attendee not found in this event", s)
        | Some i =>
            (Resp 200 "",
             save_event id
               (Event.with_attendees (delete i (Event.attendees event)) event)
               s)
        end
  end.

(** ** DELETE /api/events/:id *)

(** [event.organizers && Array.isArray(event.organizers) &&
     event.organizers.some(org => org && org.toString &&
                                  org.toString() === req.user._id.toString())] *)
Definition isOrganizer (organizers : option (list ObjectId))
    (caller : ObjectId) : bool :=
  match organizers with
  | Some l => existsb (λ org, String.eqb org caller) l
  | None => false
  end.

(** [Event.findByIdAndDelete(req.params.id)] *)
Definition delete_event (id : ObjectId) (s : Db) : Db :=
  mkDb (delete id (events s)) (users s) (clubs s) (universities s)
       (registrations s).

(** Modelled from the spec: [organizers], a field of the Event schema that
    [Event.t] does not hold, is read from a table of its own, event id to
    organizers. *)
Definition deleteEvent (organizers : gmap string (list string)) (s : Db)
    (caller role : string) (id : ObjectId) : Response * Db :=
  match events s !! id with
  | None => (event_not_found, s)
  | Some event =>
      let isAdmin := String.eqb role "Administrator" in
      let isClubPresident :=
        negb (not_president (populate_club s (Event.club event)) caller) in
      if negb isAdmin && negb isClubPresident
         && negb (isOrganizer (organizers !! id) caller)
      then (Resp 403 "Access denied. Only administrators, club presidents, or event organizers can delete events.", s)
      else (Resp 200 "Event deleted successfully", delete_event id s)
  end.

(** ** POST /api/events *)

Module NewEvent.
(** The fields of [req.body] that end up in [Event.t]. The handler copies
    the others (description, type, end date, times, venue, fee,
    requirements, contact, tags, visibility) into fields that the record
    does not hold; they play no part in the answer. *)
Record t := mk {
  title : string;
  organizer : ObjectId;
  startDate : Date;
  capacity : option Z;
  registrationRequired : bool;
  registrationDeadline : option Date }.
End NewEvent.

Module ReqUser.
(** [req.user], as [verifyToken] supplies it. [university] is
    [req.user.university?._id || req.user.university]. *)
Record t := mk { id : ObjectId; role : string; university : option ObjectId }.
End ReqUser.

(** The role-dependent authorization of event creation. *)
Definition may_create (club : Club.t) (members : list ObjectId)
    (user : ReqUser.t) : bool :=
  if String.eqb (ReqUser.role user) "Administrator" then true
  else if String.eqb (ReqUser.role user) "Club Admin"
  then match Club.president club with
       | Some p => String.eqb p (ReqUser.id user)
       | None => false
       end
  else existsb (λ member, String.eqb member (ReqUser.id user)) members.

(** Modelled from the spec: [members] and [university], fields of the Club
    schema that [Club.t] does not hold, are read from tables of their own,
    club id to member users and club id to university. [_id] is the id that
    [new Event] draws. The event is stored with [maxAttendees: capacity];
    nothing writes its [capacity] field. *)
Definition createEvent (members : gmap string (list string))
    (club_university : gmap string string) (s : Db) (user : ReqUser.t)
    (body : NewEvent.t) (_id : ObjectId) : Response * Db :=
  match clubs s !! NewEvent.organizer body with
  | None => (Resp 404 "Club not found", s)
  | Some club =>
      match populate_university s (club_university !! NewEvent.organizer body),
            ReqUser.university user with
      | Some (club_uni, _), Some user_uni =>
          if negb (String.eqb club_uni user_uni)
          then (Resp 403 "You can only create events for clubs at your university", s)
          else if negb (may_create club
                          (default [] (members !! NewEvent.organizer body))
                          user)
          then
            (Resp 403
               (if String.eqb (ReqUser.role user) "Club Admin"
                then "You can only create events for clubs where you are the president"
                else "You must be a member of the club to create events"),
             s)
          else
            (Resp 201 "Event created successfully",
             save_event _id
               (Event.mk (NewEvent.title body)
                  (Some (NewEvent.organizer body)) (Some club_uni)
                  (NewEvent.startDate body)
                  (NewEvent.registrationRequired body)
                  (NewEvent.registrationDeadline body) None
                  (NewEvent.capacity body) [] [])
               s)
      | _, _ => (Resp 500 "Server error", s)
      end
  end.

(** ** GET /api/events/:id/reviews *)

Module ReviewView.
(** A review with [reviews.user] populated: the user's id and name, or
    [null] when the user is gone. *)
Record t := mk {
  user : option (ObjectId * string);
  rating : Z;
  comment : string }.
End ReviewView.

Definition populate_user (s : Db) (uid : ObjectId)
  : option (ObjectId * string) :=
  (λ u, (uid, User.name u)) <$> users s !! uid.

(** [id] is [req.params.id] as it comes in the URL, cast by [findById]. *)
Definition getReviews (s : Db) (id : string)
  : Response + list ReviewView.t :=
  match cast id with
  | None => inl (Resp 500 "Server error")
  | Some _id =>
      match events s !! _id with
      | None => inl event_not_found
      | Some event =>
          inr (map (λ r, ReviewView.mk (populate_user s (Review.user r))
                           (Review.rating r) (Review.comment r))
                   (Event.reviews event))
      end
  end.

(** ** GET /api/event-registrations *)

Module Formatted.
Record t := mk {
  studentName : option string;
  university : option string;
  event : option string;
  registeredAt : option Date }.
End Formatted.

(** [{ studentName: r.studentName, university: r.university?.name,
       event: r.event?.title, registeredAt: r.registeredAt }] on the
    populated record. *)
Definition format (s : Db) (r : EventRegistration.t) : Formatted.t :=
  Formatted.mk (EventRegistration.studentName r)
    (snd <$> populate_university s (EventRegistration.university r))
    (Event.title <$> events s !! EventRegistration.event r)
    (EventRegistration.registeredAt r).

Definition listRegistrations (s : Db) : list Formatted.t :=
  map (format s) (registrations s).

(** ** Requests served in sequence *)

(** The requests that write to the event, user or registration
    collections of [Db]. *)
Inductive Request :=
| Register (h : Handler) (now : Date) (id uid : ObjectId)
| Unregister (now : Date) (id uid : ObjectId)
| MarkAttendance (caller role : string) (id userId : ObjectId) (attended : bool)
| RemoveAttendee (caller role : string) (id userId : ObjectId)
| SubmitReview (id uid : ObjectId) (rating : Z) (comment : string)
| CreateRegistration (eventId userId : option string).

Definition handle (q : Request) (s : Db) : Response * Db :=
  match q with
  | Register h now id uid => register h s now id uid
  | Unregister now id uid => unregister s now id uid
  | MarkAttendance caller role id userId attended =>
      markAttendance s caller role id userId attended
  | RemoveAttendee caller role id userId =>
      removeAttendee s caller role id userId
  | SubmitReview id uid rating comment => submitReview s id uid rating comment
  | CreateRegistration eventId userId => createRegistration s eventId userId
  end.

Fixpoint run (qs : list Request) (s : Db) : Db :=
  match qs with
  | [] => s
  | q :: qs' => run qs' (handle q s).2
  end.

Definition by_first_handler (q : Request) : bool :=
  match q with
  | Register First _ _ _ => true
  | _ => false
  end.

Definition is_createRegistration (q : Request) : bool :=
  match q with
  | CreateRegistration _ _ => true
  | _ => false
  end.

(** The settings of an event: everything but its attendees and reviews. *)
Definition same_settings (ev ev' : Event.t) : Prop :=
  Event.title ev' = Event.title ev
  ∧ Event.club ev' = Event.club ev
  ∧ Event.university ev' = Event.university ev
  ∧ Event.startDate ev' = Event.startDate ev
  ∧ Event.isRegistrationRequired ev' = Event.isRegistrationRequired ev
  ∧ Event.registrationDeadline ev' = Event.registrationDeadline ev
  ∧ Event.capacity ev' = Event.capacity ev
  ∧ Event.maxAttendees ev' = Event.maxAttendees ev.

(** A step of one event that adds no attendee: entries are removed, or
    flagged, or a review by a user who has attended and not yet reviewed is
    appended. *)
Definition attendees_kept (ev ev' : Event.t) : Prop :=
  same_settings ev ev'
  ∧ ((Event.reviews ev' = Event.reviews ev
      ∧ (Event.attendees ev' `sublist_of` Event.attendees ev
         ∨ Attendee.user <$> Event.attendees ev'
           = Attendee.user <$> Event.attendees ev))
     ∨ (Event.attendees ev' = Event.attendees ev
        ∧ ∃ r, alreadyReviewed (Review.user r) ev = false
               ∧ has_attended (Review.user r) ev = true
               ∧ Event.reviews ev' = Event.reviews ev ++ [r])).

(** A step of one event that appends an attendee, as handler [h] does it at
    time [now]. *)
Definition attendee_added (h : Handler) (now : Date) (ev ev' : Event.t)
  : Prop :=
  same_settings ev ev'
  ∧ Event.reviews ev' = Event.reviews ev
  ∧ Event.isRegistrationRequired ev = true
  ∧ deadline_passed now ev = false
  ∧ at_capacity (capacity_read h ev) ev = false
  ∧ ∃ uid, isRegistered uid ev = false
           ∧ Event.attendees ev'
             = Event.attendees ev ++ [Attendee.mk uid false].

(** What a request does to the event [id]. *)
Definition event_step (q : Request) (id : ObjectId) (ev ev' : Event.t)
  : Prop :=
  ev' = ev
  ∨ attendees_kept ev ev'
  ∨ match q with
    | Register h now id' _ => id' = id ∧ attendee_added h now ev ev'
    | _ => False
    end.

(** A register request that may add an attendee to the event [id] with
    settings [ev]: one for that event, made while registration is required
    and the deadline has not passed. *)
Definition may_add (id : ObjectId) (ev : Event.t) (q : Request) : bool :=
  match q with
  | Register _ now id' _ =>
      String.eqb id' id && Event.isRegistrationRequired ev
      && negb (deadline_passed now ev)
  | _ => false
  end.

(** No two attendee entries of an event name the same user. *)
Definition unique_attendees (s : Db) : Prop :=
  ∀ id ev, events s !! id = Some ev →
           NoDup (Attendee.user <$> Event.attendees ev).

(** No two reviews of an event are by the same user. *)
Definition unique_reviews (s : Db) : Prop :=
  ∀ id ev, events s !! id = Some ev →
           NoDup (Review.user <$> Event.reviews ev).

(** No two Registration records are for the same (event, user). *)
Definition unique_records (s : Db) : Prop :=
  NoDup ((λ r, (EventRegistration.event r, EventRegistration.user r))
           <$> registrations s).

(** The fair with room for two and Alice registered, and a day of
    requests on it. *)
Definition small_fair : Db :=
  db (fair_event None (Some 2) [Attendee.mk alice false]) [alice_record].

Definition busy_day : list Request :=
  [Register Second 5 fair bob;
   MarkAttendance bob "Club Admin" fair alice true;
   SubmitReview fair alice 4 "Nice";
   RemoveAttendee bob "Club Admin" fair alice;
   Unregister 6 fair bob;
   SubmitReview fair alice 4 "Nice"].

(** The fair with a registration deadline at time 10, and requests made
    after it. *)
Definition closed_fair : Db :=
  db (Event.mk "Fair" (Some chess) (Some campus) 1000 true (Some 10) None
        None [Attendee.mk alice false] []) [alice_record].

Definition late_day : list Request :=
  [Register First 11 fair bob;
   Register Second 12 fair bob;
   MarkAttendance bob "Club Admin" fair alice true;
   RemoveAttendee bob "Club Admin" fair alice].

(** The fair after Bob has registered through the first handler. *)
Definition registered_fair : Db :=
  (register1 (db (fair_event None None []) []) 5 fair bob).2.

(** * Properties *)

(** ** Basic facts *)

Lemma string_eqb_true (a b : string) : String.eqb a b = true ↔ a = b.
Proof. apply String.eqb_eq. Qed.

Lemma string_eqb_false (a b : string) : String.eqb a b = false ↔ a ≠ b.
Proof. apply String.eqb_neq. Qed.

Lemma length_append (a b : string) :
  String.length (a +:+ b) = (String.length a + String.length b)%nat.
Proof. induction a as [|c a IH]; simpl; [done | by rewrite IH]. Qed.

(** The printed document is longer than any id. *)
Lemma toString_not_ObjectId (a : Attendee.t) (uid : string) :
  is_ObjectId uid = true → String.eqb (Attendee.toString a) uid = false.
Proof.
  intros Hid. apply string_eqb_false. intros Heq.
  apply andb_prop in Hid as [Hlen _]. apply Nat.eqb_eq in Hlen.
  rewrite <- Heq in Hlen. unfold Attendee.toString in Hlen.
  rewrite !length_append in Hlen. simpl in Hlen. lia.
Qed.

(** An ObjectId is cast to itself. *)
Lemma lower_digit_hex (c : ascii) : is_hex c = true → lower_digit c = c.
Proof.
  unfold is_hex, lower_digit. generalize (nat_of_ascii c). intros n Hn.
  destruct ((65 <=? n)%nat && (n <=? 70)%nat) eqn:Hup; [|done].
  apply andb_prop in Hup as [H3%Nat.leb_le H4%Nat.leb_le].
  apply orb_prop in Hn as [[H1%Nat.leb_le H2%Nat.leb_le]%andb_prop
                          | [H1%Nat.leb_le H2%Nat.leb_le]%andb_prop]; lia.
Qed.

Lemma cast_ObjectId (x : string) : is_ObjectId x = true → cast x = Some x.
Proof.
  unfold is_ObjectId, cast. intros [-> Hall]%andb_prop. simpl.
  assert (forallb is_hex_any (list_ascii_of_string x) = true ∧ lower x = x)
    as [-> ->]; [|done].
  induction x as [|c x IH]; simpl in *; [done |].
  apply andb_prop in Hall as [Hc Hall]. destruct (IH Hall) as [-> ->].
  unfold is_hex_any. by rewrite Hc, lower_digit_hex.
Qed.

Lemma filter_all {A : Type} (f : A → bool) (l : list A) :
  (∀ x, f x = true) → List.filter f l = l.
Proof.
  intros Hf. induction l as [|x l IH]; simpl; [done |].
  by rewrite Hf, IH.
Qed.

Lemma with_attendees_same (ev : Event.t) :
  Event.with_attendees (Event.attendees ev) ev = ev.
Proof. by destruct ev. Qed.

Lemma existsb_snoc {A : Type} (f : A → bool) (l : list A) (x : A) :
  existsb f (l ++ [x]) = existsb f l || f x.
Proof. rewrite existsb_app. simpl. by rewrite orb_false_r. Qed.

Lemma isRegistered_push (uid : ObjectId) (ev : Event.t) :
  isRegistered uid (push_attendee uid ev) = true.
Proof.
  unfold isRegistered, push_attendee. simpl.
  rewrite existsb_snoc. simpl. rewrite String.eqb_refl. apply orb_true_r.
Qed.

Lemma snoc_not_same {A : Type} (l : list A) (x : A) : l ≠ l ++ [x].
Proof.
  intros Heq. apply (f_equal length) in Heq.
  rewrite length_app in Heq. simpl in Heq. lia.
Qed.

Lemma resolve_throws (s : Db) (ev : Event.t) (user : option User.t) (e : string) :
  resolve_universityName s ev user = Throw e → e = "TypeError".
Proof.
  unfold resolve_universityName. intros H.
  repeat case_match; simplify_eq; done.
Qed.

Lemma new_registration_throws (s : Db) id ev uid user un now (e : string) :
  new_registration s id ev uid user un now = Throw e → e = "TypeError".
Proof.
  unfold new_registration. intros H. repeat case_match; simplify_eq; done.
Qed.

Lemma new_registration_matches (s : Db) id ev uid user un now r :
  new_registration s id ev uid user un now = Ok r → matches id uid r = true.
Proof.
  unfold new_registration, matches. intros H.
  repeat case_match; simplify_eq; simpl; by rewrite !String.eqb_refl.
Qed.

(** ** Register: preconditions and effects *)

(** The only exception the two resolutions raise is a TypeError. *)
Ltac type_errors :=
  repeat match goal with
    | H : resolve_universityName _ _ _ = Throw _ |- _ =>
        apply resolve_throws in H; subst
    | H : new_registration _ _ _ _ _ _ _ = Throw _ |- _ =>
        apply new_registration_throws in H; subst
    end.

(** In the second handler all six checks come before the first write: a
    404, 400 or 409 answer leaves the whole database as it was. *)
Lemma register2_rejection_no_effect (s : Db) now id uid r s' :
  register2 s now id uid = (r, s') →
  status r = 404 ∨ status r = 400 ∨ status r = 409 →
  s' = s.
Proof.
  unfold register2. intros Hrun Hst.
  repeat case_match; simplify_eq; try done; type_errors; simpl in Hst; lia.
Qed.

(** The six checks of the second handler, in order; the first one that
    fails decides the answer, and the database is returned as it was. *)
Lemma register2_checks_in_order (s : Db) now id uid :
  (events s !! id = None → register2 s now id uid = (event_not_found, s))
  ∧ ∀ ev, events s !! id = Some ev →
      (Event.isRegistrationRequired ev = false →
       register2 s now id uid = (registration_not_required, s))
      ∧ (Event.isRegistrationRequired ev = true →
         (deadline_passed now ev = true →
          register2 s now id uid = (deadline_has_passed, s))
         ∧ (deadline_passed now ev = false →
            (at_capacity (capacity_read Second ev) ev = true →
             register2 s now id uid = (full_capacity, s))
            ∧ (at_capacity (capacity_read Second ev) ev = false →
               (isRegistered uid ev = true →
                register2 s now id uid = (already_registered Second, s))
               ∧ (isRegistered uid ev = false →
                  existingRegistration s id uid = true →
                  register2 s now id uid = (already_registered Second, s))))).
Proof.
  unfold register2. simpl. split; [by intros -> |].
  intros ev ->. split; [by intros -> |]. intros ->. simpl.
  split; [by intros -> |]. intros ->.
  split; [by intros -> |]. intros ->.
  split; [by intros -> |]. by intros -> ->.
Qed.

(** In the first handler the five checks on the event come before the
    first write. *)
Lemma register1_event_checks_no_effect (s : Db) now id uid :
  match events s !! id with
  | None => True
  | Some ev =>
      Event.isRegistrationRequired ev = false
      ∨ deadline_passed now ev = true
      ∨ at_capacity (Event.capacity ev) ev = true
      ∨ isRegistered uid ev = true
  end →
  (register1 s now id uid).2 = s.
Proof.
  unfold register1. destruct (events s !! id) as [ev|]; [|done].
  intros [-> | [H | [H | H]]]; simpl; [done | | |].
  - destruct (Event.isRegistrationRequired ev); simpl; by rewrite ?H.
  - destruct (Event.isRegistrationRequired ev), (deadline_passed now ev);
      simpl; by rewrite ?H.
  - destruct (Event.isRegistrationRequired ev), (deadline_passed now ev),
      (at_capacity (Event.capacity ev) ev); simpl; by rewrite ?H.
Qed.

(** C1 (the code departs from the claim): the first handler looks for an
    existing Registration-Store record only after it has saved the event and
    updated the user. With a record for (fair, alice) in the store and no
    attendee entry, the call is rejected as a duplicate, yet Alice has been
    appended to the attendees and to her own eventsAttended; the second
    handler rejects the same request and writes nothing. *)
Theorem register1_store_duplicate_appends_attendee :
  let s := db (fair_event None None []) [alice_record] in
  let s' := (register1 s 5 fair alice).2 in
  (register1 s 5 fair alice).1
    = Resp 400 "You are already registered for this event (eventregistrations)."
  ∧ Event.attendees <$> events s !! fair = Some []
  ∧ Event.attendees <$> events s' !! fair = Some [Attendee.mk alice false]
  ∧ User.eventsAttended <$> users s' !! alice = Some [Attended.mk fair 5]
  ∧ registrations s' = registrations s
  ∧ register2 s 5 fair alice = (already_registered Second, s).
Proof. vm_compute. repeat split; reflexivity. Qed.

(** ** Unregister *)

Lemma unregister_not_found (s : Db) now id uid :
  events s !! id = None → unregister s now id uid = (event_not_found, s).
Proof. unfold unregister. by intros ->. Qed.

(** At or after the start the call is refused and nothing is written. *)
Lemma unregister_after_start (s : Db) now id uid ev :
  events s !! id = Some ev →
  Event.startDate ev <= now →
  unregister s now id uid
  = (Resp 400 "Cannot unregister from an event that has already started", s).
Proof.
  unfold unregister. intros -> Hle.
  destruct (Z.geb_spec now (Event.startDate ev)); [done | lia].
Qed.

(** Before the start the call answers 200, but for a caller whose id is an
    ObjectId the filter keeps every attendee: the event is saved
    unchanged. *)
Lemma unregister_never_removes (s : Db) now id uid ev :
  is_ObjectId uid = true →
  events s !! id = Some ev →
  now < Event.startDate ev →
  ∃ s', unregister s now id uid
        = (Resp 200 "Successfully unregistered from the event", s')
        ∧ events s' = events s.
Proof.
  unfold unregister. intros Hid Hev Hlt. rewrite Hev.
  destruct (Z.geb_spec now (Event.startDate ev)); [lia |].
  eexists. split; [reflexivity |].
  unfold update_user, save_event. cbn [events].
  rewrite filter_all.
  - rewrite with_attendees_same. by apply insert_id.
  - intros a. cbn beta. by rewrite toString_not_ObjectId.
Qed.

(** C3 (the code departs from the claim): Alice is an attendee of the fair,
    which starts at 1000. Her unregister request at time 5 is answered 200
    "Successfully unregistered", and the attendees list still holds her
    entry: the filter compares the printed embedded document with her id,
    where the sibling handlers compare [attendee.user]. *)
Theorem unregister_leaves_attendee :
  let s := db (fair_event None None [Attendee.mk alice false]) [alice_record] in
  isRegistered alice (fair_event None None [Attendee.mk alice false]) = true
  ∧ (unregister s 5 fair alice).1
    = Resp 200 "Successfully unregistered from the event"
  ∧ Event.attendees <$> events (unregister s 5 fair alice).2 !! fair
    = Some [Attendee.mk alice false]
  ∧ unregister s 1000 fair alice
    = (Resp 400 "Cannot unregister from an event that has already started", s).
Proof. vm_compute. repeat split; reflexivity. Qed.

(** C6: Unregister does not touch the Registration Store. Whatever the
    request and its outcome (and so for every successful call), the list of
    Registration records after the call is the list before it. *)
Theorem unregister_keeps_registrations (s : Db) (now : Z) (id uid : string) :
  registrations (unregister s now id uid).2 = registrations s.
Proof.
  unfold unregister. destruct (events s !! id) as [ev|]; [|done].
  by destruct (now >=? Event.startDate ev).
Qed.

(** ** Capacity *)

(** What a register request does to the event collection: nothing, or the
    caller is appended to an event that the handler found below the
    capacity it reads and without an entry for the caller. *)
Lemma register_events (h : Handler) (s : Db) now id uid :
  events (register h s now id uid).2 = events s
  ∨ ∃ ev, events s !! id = Some ev
          ∧ at_capacity (capacity_read h ev) ev = false
          ∧ isRegistered uid ev = false
          ∧ events (register h s now id uid).2
            = <[id := push_attendee uid ev]> (events s).
Proof.
  destruct h; simpl; [unfold register1 | unfold register2];
    destruct (events s !! id) as [ev|] eqn:Hev; try (by left);
    repeat case_match; simplify_eq; try (by left);
    right; exists ev; done.
Qed.

(** The second handler refuses a request for an event that has reached its
    effective capacity, whichever of the two fields holds it. *)
Lemma register2_full_capacity (s : Db) now id uid ev :
  events s !! id = Some ev →
  Event.isRegistrationRequired ev = true →
  deadline_passed now ev = false →
  at_capacity (or_num (Event.maxAttendees ev) (Event.capacity ev)) ev = true →
  register2 s now id uid = (full_capacity, s).
Proof. unfold register2. by intros -> -> -> ->. Qed.

Lemma at_capacity_maxAttendees (ev : Event.t) (m : Z) :
  Event.maxAttendees ev = Some m →
  m ≠ 0 →
  m <= Z.of_nat (length (Event.attendees ev)) →
  at_capacity (or_num (Event.maxAttendees ev) (Event.capacity ev)) ev = true.
Proof.
  intros -> Hm Hle. unfold or_num, at_capacity, truthy_num.
  destruct (Z.eqb_spec m 0) as [|_]; [done |]. simpl.
  destruct (Z.eqb_spec m 0) as [|_]; [done |]. simpl. lia.
Qed.

(** Served by the second handler, a request keeps every event within its
    effective capacity. *)
Lemma register2_within_capacity (s : Db) now id uid :
  within_capacity s → within_capacity (register2 s now id uid).2.
Proof.
  intros Hinv id' ev' C Hev' Hcap HC.
  destruct (register_events Second s now id uid) as [Heq | (ev & Hev & Hroom & _ & Heq)];
    simpl in Heq; rewrite Heq in Hev'; [by eapply Hinv |].
  destruct (decide (id = id')) as [<- | Hne].
  - rewrite lookup_insert_eq in Hev'. simplify_eq.
    unfold push_attendee in *. simpl in *. rewrite Hcap in Hroom.
    unfold at_capacity in Hroom. rewrite HC in Hroom. simpl in Hroom.
    rewrite length_app. simpl. lia.
  - rewrite lookup_insert_ne in Hev' by done. by eapply Hinv.
Qed.

(** ... and so does any sequence of requests served one after the other. *)
Lemma serve2_within_capacity (calls : list (Z * string * string)) (s : Db) :
  within_capacity s → within_capacity (serve Second calls s).
Proof.
  revert s. induction calls as [|[[now id] uid] calls IH]; intros s Hinv;
    simpl; [done |].
  apply IH. by apply register2_within_capacity.
Qed.

(** C2 (the code departs from the claim): the fair has maxAttendees = 1, no
    legacy capacity field, and Alice as its one attendee. Bob's request to
    the first handler goes through every write (attendee appended, record
    added to the Registration Store), leaving two attendees for an effective
    capacity of one; the check reads [event.capacity], which is not set.
    The second handler refuses the same request. *)
Theorem register1_exceeds_capacity :
  let ev := fair_event None (Some 1) [Attendee.mk alice false] in
  let s := db ev [alice_record] in
  let s' := serve First [(5, fair, bob)] s in
  or_num (Event.maxAttendees ev) (Event.capacity ev) = Some 1
  ∧ Z.of_nat (length (Event.attendees ev)) <= 1
  ∧ registrations s'
    = registrations s
      ++ [EventRegistration.mk fair (Some "Fair") bob (Some "Bob")
            (Some campus) (Some "Campus") (Some 5)]
  ∧ length ∘ Event.attendees <$> events s' !! fair = Some 2%nat
  ∧ serve Second [(5, fair, bob)] s = s.
Proof. vm_compute. repeat split; (reflexivity || discriminate). Qed.

(** C4 (the code departs from the claim): same event, full by its
    maxAttendees. The second handler answers "Event is at full capacity";
    the first handler, which reads only [event.capacity], does not, and
    appends Bob. *)
Theorem register1_ignores_maxAttendees :
  let ev := fair_event None (Some 1) [Attendee.mk alice false] in
  let s := db ev [alice_record] in
  at_capacity (capacity_read Second ev) ev = true
  ∧ at_capacity (capacity_read First ev) ev = false
  ∧ register2 s 5 fair bob = (full_capacity, s)
  ∧ (register1 s 5 fair bob).1 = register_catch "ReferenceError"
  ∧ Event.attendees <$> events (register1 s 5 fair bob).2 !! fair
    = Some [Attendee.mk alice false; Attendee.mk bob false].
Proof. vm_compute. repeat split; reflexivity. Qed.

(** ** Registering twice *)

(** The second handler answers 201 exactly when it has added the record. *)
Lemma register2_created_iff_201 (s : Db) now id uid :
  registration_created s (register2 s now id uid).2 id uid
  ↔ (register2 s now id uid).1 = registered_successfully.
Proof.
  unfold registration_created, register2. split.
  - intros (r & Hr & _). repeat case_match; simplify_eq; try done;
      simpl in Hr; by apply snoc_not_same in Hr.
  - intros Hst. repeat case_match; simplify_eq; type_errors; try done.
    eexists. split; [done |]. by eapply new_registration_matches.
Qed.

(** A call that has added the record has also left the caller among the
    attendees of the event, which still requires registration. *)
Lemma register_created_event (h : Handler) (s : Db) now id uid :
  registration_created s (register h s now id uid).2 id uid →
  ∃ ev, events s !! id = Some ev
        ∧ Event.isRegistrationRequired ev = true
        ∧ events (register h s now id uid).2 !! id
          = Some (push_attendee uid ev).
Proof.
  intros (r & Hr & _).
  destruct h; simpl in *; [unfold register1 in * | unfold register2 in *];
    destruct (events s !! id) as [ev|] eqn:Hev;
    try (by apply snoc_not_same in Hr);
    exists ev; (split; [done |]);
    destruct (Event.isRegistrationRequired ev);
    try (by apply snoc_not_same in Hr);
    (split; [done |]);
    repeat case_match; simplify_eq;
    try (by apply snoc_not_same in Hr);
    simpl; apply lookup_insert_eq.
Qed.

(** A request by a caller who is among the attendees is refused by either
    handler before any write; which refusal it gets follows the order of
    the checks. *)
Lemma register_attendee_rejected (h : Handler) (s : Db) now id uid ev :
  events s !! id = Some ev →
  Event.isRegistrationRequired ev = true →
  isRegistered uid ev = true →
  register h s now id uid
  = (if deadline_passed now ev then deadline_has_passed
     else if at_capacity (capacity_read h ev) ev then full_capacity
     else already_registered h, s).
Proof.
  intros Hev Hreq Hin.
  destruct h; simpl; [unfold register1 | unfold register2];
    rewrite Hev, Hreq, Hin; simpl; by repeat case_match.
Qed.

(** C5, as stated, fails: the fair takes one attendee; Alice registers (201)
    and asks again; the second answer is "Event is at full capacity", not
    the duplicate-registration answer of either handler. *)
Lemma second_register_not_duplicate :
  (register2 (db (fair_event None (Some 1) []) []) 5 fair alice).1
  = registered_successfully
  ∧ (register2
       (register2 (db (fair_event None (Some 1) []) []) 5 fair alice).2
       6 fair alice).1
    = full_capacity
  ∧ full_capacity ≠ already_registered Second
  ∧ full_capacity ≠ already_registered First.
Proof. vm_compute. repeat split; (reflexivity || discriminate). Qed.

(** C5, amended: after a Register call that has registered the user (the
    record was added to the Registration Store), a further Register call for
    the same event and user, by either handler and at any time, is refused
    and leaves the database exactly as the first call left it: no second
    attendee entry and no second record. The refusal is the first failing
    check in order: deadline passed, else event at the capacity the handler
    reads, else duplicate registration. *)
Theorem register_again_rejected (h h' : Handler) (s : Db) (now1 now2 : Z)
    (id uid : string) :
  registration_created s (register h s now1 id uid).2 id uid →
  ∃ ev1,
    events (register h s now1 id uid).2 !! id = Some ev1
    ∧ register h' (register h s now1 id uid).2 now2 id uid
      = (if deadline_passed now2 ev1 then deadline_has_passed
         else if at_capacity (capacity_read h' ev1) ev1 then full_capacity
         else already_registered h',
         (register h s now1 id uid).2).
Proof.
  intros Hcreated.
  destruct (register_created_event h s now1 id uid Hcreated)
    as (ev & _ & Hreq & Hev1).
  exists (push_attendee uid ev). split; [done |].
  apply register_attendee_rejected; [done | done |].
  apply isRegistered_push.
Qed.

Lemma register_again_rejected_witness :
  ∃ ev1,
    events (register Second (db (fair_event None None []) []) 5 fair alice).2
      !! fair = Some ev1
    ∧ register Second
        (register Second (db (fair_event None None []) []) 5 fair alice).2
        6 fair alice
      = (if deadline_passed 6 ev1 then deadline_has_passed
         else if at_capacity (capacity_read Second ev1) ev1 then full_capacity
         else already_registered Second,
         (register Second (db (fair_event None None []) []) 5 fair alice).2).
Proof.
  apply (register_again_rejected Second Second
           (db (fair_event None None []) []) 5 6 fair alice).
  exists (EventRegistration.mk fair (Some "Fair") alice (Some "Alice")
            (Some campus) (Some "Campus") (Some 5)).
  split; vm_compute; reflexivity.
Defined.

(** ** Reviews *)

Lemma existsb_elem_of {A : Type} (f : A → bool) (l : list A) :
  existsb f l = true ↔ ∃ x, x ∈ l ∧ f x = true.
Proof.
  rewrite existsb_exists. split; intros (x & Hx & Hf); exists x;
    (split; [by apply list_elem_of_In | done]).
Qed.

Lemma has_attended_spec (uid : string) (ev : Event.t) :
  has_attended uid ev = true ↔ attended_by uid ev.
Proof.
  unfold has_attended, attended_by. rewrite existsb_elem_of.
  split; intros (a & Ha & H); exists a.
  - apply andb_prop in H as [Hu Hat]. by apply string_eqb_true in Hu.
  - destruct H as [-> ->]. by rewrite String.eqb_refl.
Qed.

Lemma alreadyReviewed_spec (uid : string) (ev : Event.t) :
  alreadyReviewed uid ev = true ↔ reviewed_by uid ev.
Proof.
  unfold alreadyReviewed, reviewed_by. rewrite existsb_elem_of.
  split; intros (r & Hr & H); exists r.
  - by apply string_eqb_true in H.
  - split; [done |]. by apply string_eqb_true.
Qed.

(** Marking [userId] as having attended yields a list with an attended
    entry for that user. *)
Lemma mark_attended (userId : string) (l l' : list Attendee.t) :
  mark userId true l = Some l' →
  existsb (λ a, String.eqb (Attendee.user a) userId && Attendee.attended a) l'
  = true.
Proof.
  revert l'. induction l as [|a l IH]; intros l' Hm; simpl in Hm; [done |].
  destruct (String.eqb (Attendee.user a) userId) eqn:Hu.
  - simplify_eq. simpl. by rewrite Hu.
  - destruct (mark userId true l) as [l''|]; [|done]. simplify_eq.
    simpl. rewrite (IH l'') by done. apply orb_true_r.
Qed.

Lemma markAttendance_marked (s s1 : Db) caller role id uid ev :
  events s !! id = Some ev →
  markAttendance s caller role id uid true = (Resp 200 "", s1) →
  ∃ ev1, events s1 !! id = Some ev1
         ∧ has_attended uid ev1 = true
         ∧ Event.reviews ev1 = Event.reviews ev.
Proof.
  unfold markAttendance. intros -> Hrun.
  repeat case_match; simplify_eq.
  eexists. split; [apply lookup_insert_eq |].
  split; [|done]. unfold has_attended. simpl. by eapply mark_attended.
Qed.

Lemma submitReview_accepts (s : Db) id uid rating comment ev :
  is_ObjectId id = true →
  events s !! id = Some ev →
  has_attended uid ev = true →
  alreadyReviewed uid ev = false →
  submitReview s id uid rating comment
  = (review_added,
     save_event id
       (Event.with_reviews
          (Event.reviews ev ++ [Review.mk uid rating comment]) ev) s).
Proof. unfold submitReview. by intros ->%cast_ObjectId -> -> ->. Qed.

Lemma submitReview_duplicate (s : Db) id uid rating comment ev :
  is_ObjectId id = true →
  events s !! id = Some ev →
  has_attended uid ev = true →
  alreadyReviewed uid ev = true →
  submitReview s id uid rating comment = (already_reviewed, s).
Proof. unfold submitReview. by intros ->%cast_ObjectId -> -> ->. Qed.

(** A parameter that is not an id is answered 500, and nothing is
    written. *)
Lemma submitReview_cast_error (s : Db) id uid rating comment :
  cast id = None →
  submitReview s id uid rating comment = (Resp 500 "Server error", s).
Proof. unfold submitReview. by intros ->. Qed.

(** C7: for an event id (an ObjectId), SubmitReview answers 404 when the
    event is missing; 400 "You must attend ..." when no attendee entry of
    the event has this user with attended = true; 400 "You already reviewed
    ..." when (the attendance check passed and) a review by this user is
    already there; otherwise 200, and the event is saved with exactly one
    review {user, rating, comment} appended. After a successful
    MarkAttendance(attended = true) for a user without a review, the first
    SubmitReview is accepted and an identical second one is refused as a
    duplicate. *)
Theorem submitReview_cases (s : Db) (id uid : string) (rating : Z)
    (comment : string) :
  is_ObjectId id = true →
  (events s !! id = None →
   submitReview s id uid rating comment = (event_not_found, s))
  ∧ (∀ ev, events s !! id = Some ev →
       (¬ attended_by uid ev →
        submitReview s id uid rating comment = (must_attend, s))
       ∧ (attended_by uid ev → reviewed_by uid ev →
          submitReview s id uid rating comment = (already_reviewed, s))
       ∧ (attended_by uid ev → ¬ reviewed_by uid ev →
          submitReview s id uid rating comment
          = (review_added,
             save_event id
               (Event.with_reviews
                  (Event.reviews ev ++ [Review.mk uid rating comment]) ev)
               s)))
  ∧ (∀ caller role s1 ev,
       events s !! id = Some ev →
       ¬ reviewed_by uid ev →
       markAttendance s caller role id uid true = (Resp 200 "", s1) →
       ∃ s2,
         submitReview s1 id uid rating comment = (review_added, s2)
         ∧ submitReview s2 id uid rating comment = (already_reviewed, s2)).
Proof.
  intros Hid. pose proof (cast_ObjectId id Hid) as Hcast.
  split; [|split].
  - unfold submitReview. rewrite Hcast. by intros ->.
  - intros ev Hev. repeat split.
    + rewrite <- has_attended_spec. intros Hno%not_true_is_false.
      unfold submitReview. by rewrite Hcast, Hev, Hno.
    + rewrite <- has_attended_spec, <- alreadyReviewed_spec.
      by apply submitReview_duplicate.
    + rewrite <- has_attended_spec, <- alreadyReviewed_spec.
      intros Hat Hno%not_true_is_false. by apply submitReview_accepts.
  - intros caller role s1 ev Hev Hno Hmark.
    rewrite <- alreadyReviewed_spec in Hno. apply not_true_is_false in Hno.
    destruct (markAttendance_marked _ _ _ _ _ _ _ Hev Hmark)
      as (ev1 & Hev1 & Hat & Hrev).
    eexists. split.
    + apply submitReview_accepts; [done | done | done |].
      unfold alreadyReviewed in *. by rewrite Hrev.
    + eapply submitReview_duplicate.
      * done.
      * unfold save_event. simpl. apply lookup_insert_eq.
      * done.
      * unfold alreadyReviewed. simpl. rewrite existsb_snoc. simpl.
        rewrite String.eqb_refl. apply orb_true_r.
Qed.

(** After Bob has marked her attendance, Alice reviews the fair once. *)
Lemma submitReview_cases_witness :
  ∃ s2,
    submitReview attended_fair fair alice 5 "Great" = (review_added, s2)
    ∧ submitReview s2 fair alice 5 "Great" = (already_reviewed, s2).
Proof.
  apply (proj2 (proj2 (submitReview_cases
                  (db (fair_event None None [Attendee.mk alice false]) [])
                  fair alice 5 "Great" eq_refl))
           bob "Club Admin" attended_fair
           (fair_event None None [Attendee.mk alice false])).
  - vm_compute. reflexivity.
  - intros (r & Hr & _). vm_compute in Hr. inversion Hr.
  - vm_compute. reflexivity.
Defined.

(** ** The two handlers compared *)

(** Nothing the first handler does depends on [maxAttendees]. *)
Lemma register1_blind_to_maxAttendees (s : Db) now id uid ev m :
  (register1 (save_event id (Event.with_maxAttendees m ev) s) now id uid).1
  = (register1 (save_event id ev s) now id uid).1.
Proof.
  unfold register1, save_event. cbn [events].
  rewrite !lookup_insert_eq. destruct ev.
  unfold deadline_passed, at_capacity, isRegistered, push_attendee,
    update_user, save_registration, existingRegistration,
    resolve_universityName, new_registration, populate_university,
    Event.with_maxAttendees, Event.with_attendees.
  cbn [events users universities registrations Event.title Event.university
       Event.isRegistrationRequired Event.registrationDeadline Event.capacity
       Event.attendees].
  repeat case_match; simplify_eq; done.
Qed.

Lemma deadline_open (now : Z) (ev : Event.t) :
  (∀ d, Event.registrationDeadline ev = Some d → now <= d) →
  deadline_passed now ev = false.
Proof.
  unfold deadline_passed. destruct (Event.registrationDeadline ev) as [d|];
    [|done].
  intros Hd. specialize (Hd d eq_refl). lia.
Qed.

Lemma at_capacity_reached (ev : Event.t) (c : Z) :
  c ≠ 0 → c <= Z.of_nat (length (Event.attendees ev)) →
  at_capacity (Some c) ev = true.
Proof.
  intros Hc Hle. unfold at_capacity, truthy_num.
  destruct (Z.eqb_spec c 0); [done |]. simpl. lia.
Qed.

Lemma at_capacity_room (ev : Event.t) (c : Z) :
  Z.of_nat (length (Event.attendees ev)) < c →
  at_capacity (Some c) ev = false.
Proof.
  intros Hlt. unfold at_capacity. apply andb_false_iff. right. lia.
Qed.

Lemma or_num_set (m : Z) (b : option Z) : m ≠ 0 → or_num (Some m) b = Some m.
Proof. intros Hm. unfold or_num, truthy_num. by destruct (Z.eqb_spec m 0). Qed.

(** The first handler refuses at the legacy capacity. *)
Lemma register1_full_capacity (s : Db) now id uid ev c :
  events s !! id = Some ev →
  Event.isRegistrationRequired ev = true →
  (∀ d, Event.registrationDeadline ev = Some d → now <= d) →
  Event.capacity ev = Some c →
  c ≠ 0 →
  c <= Z.of_nat (length (Event.attendees ev)) →
  register1 s now id uid = (full_capacity, s).
Proof.
  intros Hev Hreq Hdl%deadline_open Hc Hne Hle. unfold register1.
  by rewrite Hev, Hreq, Hdl, Hc, at_capacity_reached.
Qed.

(** The second handler refuses at maxAttendees when that is a non-zero
    number, and at the legacy capacity when maxAttendees is absent. *)
Lemma register2_full_maxAttendees (s : Db) now id uid ev m :
  events s !! id = Some ev →
  Event.isRegistrationRequired ev = true →
  (∀ d, Event.registrationDeadline ev = Some d → now <= d) →
  Event.maxAttendees ev = Some m →
  m ≠ 0 →
  m <= Z.of_nat (length (Event.attendees ev)) →
  register2 s now id uid = (full_capacity, s).
Proof.
  intros Hev Hreq Hdl%deadline_open Hm Hne Hle. unfold register2.
  rewrite Hev, Hreq, Hdl, Hm. cbn [negb]. rewrite or_num_set by done.
  by rewrite at_capacity_reached.
Qed.

Lemma register2_full_fallback (s : Db) now id uid ev c :
  events s !! id = Some ev →
  Event.isRegistrationRequired ev = true →
  (∀ d, Event.registrationDeadline ev = Some d → now <= d) →
  Event.maxAttendees ev = None →
  Event.capacity ev = Some c →
  c ≠ 0 →
  c <= Z.of_nat (length (Event.attendees ev)) →
  register2 s now id uid = (full_capacity, s).
Proof.
  intros Hev Hreq Hdl%deadline_open Hm Hc Hne Hle. unfold register2.
  rewrite Hev, Hreq, Hdl, Hm, Hc. cbn [negb or_num].
  by rewrite at_capacity_reached.
Qed.

(** With room under maxAttendees the second handler does not look at the
    legacy capacity. *)
Lemma register2_room_maxAttendees (s : Db) now id uid ev m :
  events s !! id = Some ev →
  Event.maxAttendees ev = Some m →
  m ≠ 0 →
  Z.of_nat (length (Event.attendees ev)) < m →
  (register2 s now id uid).1 ≠ full_capacity.
Proof.
  intros Hev Hm Hne Hlt. unfold register2. rewrite Hev, Hm.
  rewrite or_num_set by done. rewrite at_capacity_room by done.
  repeat case_match; simplify_eq; type_errors; done.
Qed.

(** Without any capacity, a caller who is among the attendees is answered
    400 by the first handler and 409 by the second. *)
Lemma register_duplicate_status (s : Db) now id uid ev :
  events s !! id = Some ev →
  Event.isRegistrationRequired ev = true →
  (∀ d, Event.registrationDeadline ev = Some d → now <= d) →
  Event.capacity ev = None →
  Event.maxAttendees ev = None →
  isRegistered uid ev = true →
  register1 s now id uid
  = (Resp 400 "You are already registered for this event", s)
  ∧ register2 s now id uid
    = (Resp 409 "You have already registered for this event.", s).
Proof.
  intros Hev Hreq Hdl%deadline_open Hc Hm Hin.
  unfold register1, register2. by rewrite Hev, Hreq, Hdl, Hc, Hm, Hin.
Qed.

(** C8: the two handlers of the register route are not equivalent: there
    are states on which they answer differently. For a caller already among
    the attendees the first answers 400 and the second 409 (on an explicit
    state, and on every event without capacity). At an event full by its
    maxAttendees the second answers "Event is at full capacity" and the
    first does not. The first handler enforces the legacy capacity field and
    its answer never depends on maxAttendees; the second enforces
    maxAttendees when it is set, looks no further while there is room under
    it, and falls back to the legacy capacity when maxAttendees is absent. *)
Theorem register_handlers_differ :
  (∃ s now id uid,
     status (register1 s now id uid).1 = 400
     ∧ status (register2 s now id uid).1 = 409)
  ∧ (∃ s now id uid,
       (register2 s now id uid).1 = full_capacity
       ∧ (register1 s now id uid).1 ≠ full_capacity)
  ∧ (∀ s now id uid ev,
       is_ObjectId id = true →
       events s !! id = Some ev →
       Event.isRegistrationRequired ev = true →
       (∀ d, Event.registrationDeadline ev = Some d → now <= d) →
       Event.capacity ev = None →
       Event.maxAttendees ev = None →
       isRegistered uid ev = true →
       register1 s now id uid
       = (Resp 400 "You are already registered for this event", s)
       ∧ register2 s now id uid
         = (Resp 409 "You have already registered for this event.", s))
  ∧ (∀ s now id uid ev m,
       (register1 (save_event id (Event.with_maxAttendees m ev) s) now id uid).1
       = (register1 (save_event id ev s) now id uid).1)
  ∧ (∀ s now id uid ev c,
       is_ObjectId id = true →
       events s !! id = Some ev →
       Event.isRegistrationRequired ev = true →
       (∀ d, Event.registrationDeadline ev = Some d → now <= d) →
       Event.capacity ev = Some c →
       c ≠ 0 →
       c <= Z.of_nat (length (Event.attendees ev)) →
       register1 s now id uid = (full_capacity, s))
  ∧ (∀ s now id uid ev m,
       is_ObjectId id = true →
       events s !! id = Some ev →
       Event.isRegistrationRequired ev = true →
       (∀ d, Event.registrationDeadline ev = Some d → now <= d) →
       Event.maxAttendees ev = Some m →
       m ≠ 0 →
       m <= Z.of_nat (length (Event.attendees ev)) →
       register2 s now id uid = (full_capacity, s))
  ∧ (∀ s now id uid ev m,
       is_ObjectId id = true →
       events s !! id = Some ev →
       Event.maxAttendees ev = Some m →
       m ≠ 0 →
       Z.of_nat (length (Event.attendees ev)) < m →
       (register2 s now id uid).1 ≠ full_capacity)
  ∧ (∀ s now id uid ev c,
       is_ObjectId id = true →
       events s !! id = Some ev →
       Event.isRegistrationRequired ev = true →
       (∀ d, Event.registrationDeadline ev = Some d → now <= d) →
       Event.maxAttendees ev = None →
       Event.capacity ev = Some c →
       c ≠ 0 →
       c <= Z.of_nat (length (Event.attendees ev)) →
       register2 s now id uid = (full_capacity, s)).
Proof.
  split; [|split; [|split; [|split; [|split; [|split; [|split]]]]]].
  - exists (db (fair_event None None [Attendee.mk alice false]) []),
      5, fair, alice.
    vm_compute. split; reflexivity.
  - exists (db (fair_event None (Some 1) [Attendee.mk alice false]) []),
      5, fair, bob.
    vm_compute. split; [reflexivity | discriminate].
  - intros s now id uid ev _. apply register_duplicate_status.
  - apply register1_blind_to_maxAttendees.
  - intros s now id uid ev c _. apply register1_full_capacity.
  - intros s now id uid ev m _. apply register2_full_maxAttendees.
  - intros s now id uid ev m _. apply register2_room_maxAttendees.
  - intros s now id uid ev c _. apply register2_full_fallback.
Qed.

(** The fair with a legacy capacity of one, no maxAttendees, and Alice
    registered: both handlers refuse Bob. With maxAttendees = 2 on top, the
    second handler no longer refuses him for capacity. *)
Lemma register_handlers_differ_witness :
  register1 (db (fair_event (Some 1) None [Attendee.mk alice false]) [])
    5 fair bob
  = (full_capacity, db (fair_event (Some 1) None [Attendee.mk alice false]) [])
  ∧ register2 (db (fair_event (Some 1) None [Attendee.mk alice false]) [])
      5 fair bob
    = (full_capacity,
       db (fair_event (Some 1) None [Attendee.mk alice false]) [])
  ∧ (register2
       (db (fair_event (Some 1) (Some 2) [Attendee.mk alice false]) [])
       5 fair bob).1
    ≠ full_capacity.
Proof.
  destruct register_handlers_differ
    as (_ & _ & _ & _ & Hlegacy & _ & Hroom & Hfallback).
  split; [|split].
  - apply (Hlegacy _ 5 fair bob
             (fair_event (Some 1) None [Attendee.mk alice false]) 1);
      [reflexivity | vm_compute; reflexivity | reflexivity | discriminate
      | reflexivity | lia | simpl; lia].
  - apply (Hfallback _ 5 fair bob
             (fair_event (Some 1) None [Attendee.mk alice false]) 1);
      [reflexivity | vm_compute; reflexivity | reflexivity | discriminate
      | reflexivity | reflexivity | lia | simpl; lia].
  - apply (Hroom _ 5 fair bob
             (fair_event (Some 1) (Some 2) [Attendee.mk alice false]) 2);
      [reflexivity | vm_compute; reflexivity | reflexivity | lia
      | simpl; lia].
Defined.

(** ** The stand-alone registration endpoint *)

(** C9, as stated, fails: both fields are present, yet the endpoint answers
    500 and writes nothing, because "abc" cannot be cast to an ObjectId. *)
Lemma createRegistration_uncastable :
  missing (Some "abc") = false
  ∧ missing (Some alice) = false
  ∧ createRegistration (db (fair_event None (Some 1) []) [alice_record])
      (Some "abc") (Some alice)
    = (Resp 500 "Server error",
       db (fair_event None (Some 1) []) [alice_record]).
Proof. vm_compute. repeat split; reflexivity. Qed.

(** C9, amended: with both fields present (non-empty) and castable to
    ObjectIds, POST /api/event-registrations answers 201 and appends the
    record {event, user} to the Registration Store, whatever the database
    holds: no look-up of the event, of its flags, deadline or capacity, or of
    existing records or attendees takes place, and the event, user, club and
    university collections are left as they were. So a pair that already has
    a record gets a second one, and a record appears without any attendee
    entry. If a present field cannot be cast the answer is 500, and if a
    field is missing (or empty) the answer is 400; in both cases nothing is
    written. *)
Theorem createRegistration_unconditional (s : Db) (eventId userId : option string) :
  (∀ e u e' u', eventId = Some e → userId = Some u → e ≠ "" → u ≠ "" →
     cast e = Some e' → cast u = Some u' →
     createRegistration s eventId userId
     = (Resp 201 "Registration saved successfully.",
        mkDb (events s) (users s) (clubs s) (universities s)
          (registrations s
           ++ [EventRegistration.mk e' None u' None None None None])))
  ∧ (∀ e u, eventId = Some e → userId = Some u → e ≠ "" → u ≠ "" →
       cast e = None ∨ cast u = None →
       createRegistration s eventId userId = (Resp 500 "Server error", s))
  ∧ (missing eventId = true ∨ missing userId = true →
     createRegistration s eventId userId
     = (Resp 400 "Event ID and User ID are required.", s)).
Proof.
  split; [|split].
  - intros e u e' u' -> -> He%string_eqb_false Hu%string_eqb_false Hce Hcu.
    unfold createRegistration, missing, truthy_str. rewrite He, Hu. simpl.
    by rewrite Hce, Hcu.
  - intros e u -> -> He%string_eqb_false Hu%string_eqb_false Hc.
    unfold createRegistration, missing, truthy_str. rewrite He, Hu. simpl.
    destruct Hc as [-> | ->]; [done |]. by destruct (cast e).
  - unfold createRegistration. intros [-> | ->]; [done |].
    by rewrite orb_true_r.
Qed.

(** Alice already has a record for the fair and no attendee entry: the
    endpoint adds a second record and leaves the event alone; an id that is
    no ObjectId is answered 500, and without a user id it refuses. *)
Lemma createRegistration_unconditional_witness :
  createRegistration (db (fair_event None (Some 1) []) [alice_record])
    (Some fair) (Some alice)
  = (Resp 201 "Registration saved successfully.",
     db (fair_event None (Some 1) [])
        [alice_record;
         EventRegistration.mk fair None alice None None None None])
  ∧ createRegistration (db (fair_event None (Some 1) []) [alice_record])
      (Some fair) (Some "me")
    = (Resp 500 "Server error",
       db (fair_event None (Some 1) []) [alice_record])
  ∧ createRegistration (db (fair_event None (Some 1) []) [alice_record])
      (Some fair) None
    = (Resp 400 "Event ID and User ID are required.",
       db (fair_event None (Some 1) []) [alice_record]).
Proof.
  split; [|split].
  - apply (proj1 (createRegistration_unconditional
                    (db (fair_event None (Some 1) []) [alice_record])
                    (Some fair) (Some alice)) fair alice fair alice);
      [reflexivity | reflexivity | discriminate | discriminate
      | vm_compute; reflexivity | vm_compute; reflexivity].
  - apply (proj1 (proj2 (createRegistration_unconditional
                           (db (fair_event None (Some 1) []) [alice_record])
                           (Some fair) (Some "me"))) fair "me");
      [reflexivity | reflexivity | discriminate | discriminate |].
    right. vm_compute. reflexivity.
  - apply (proj2 (proj2 (createRegistration_unconditional
                           (db (fair_event None (Some 1) []) [alice_record])
                           (Some fair) None))).
    right. reflexivity.
Defined.

(** ** The user's eventsAttended *)

Lemma register1_created_users (s : Db) now id uid :
  registration_created s (register1 s now id uid).2 id uid →
  users (register1 s now id uid).2 = alter (push_eventsAttended id now) uid (users s)
  ∧ is_Some (users s !! uid).
Proof.
  intros (r & Hr & _). unfold register1 in *.
  repeat case_match; simplify_eq; try (by apply snoc_not_same in Hr).
  split; [done |].
  match goal with H : new_registration _ _ _ _ _ _ _ = Ok _ |- _ =>
    unfold new_registration in H; simpl in H;
    rewrite lookup_alter_eq in H;
    destruct (users s !! uid); [done | simpl in H; done]
  end.
Qed.

(** C10: a Register call served by the first handler that registers the
    user (adds the record to the Registration Store) has also appended
    {event, attendedDate: now} to that user's eventsAttended, attended or
    not. An Unregister call for an existing event before its start is
    answered 200 and removes from the caller's eventsAttended every entry
    for the event, keeping the others in order. In both cases the user's
    name, role and university, and every other user, are unchanged. *)
Theorem eventsAttended_effects (s : Db) (now : Z) (id uid : string) :
  (registration_created s (register1 s now id uid).2 id uid →
   (∃ usr, users s !! uid = Some usr
           ∧ users (register1 s now id uid).2 !! uid
             = Some (User.mk (User.name usr) (User.role usr)
                       (User.university usr)
                       (User.eventsAttended usr ++ [Attended.mk id now])))
   ∧ ∀ other, other ≠ uid →
       users (register1 s now id uid).2 !! other = users s !! other)
  ∧ (∀ ev,
       is_ObjectId id = true →
       events s !! id = Some ev →
       now < Event.startDate ev →
       (unregister s now id uid).1
       = Resp 200 "Successfully unregistered from the event"
       ∧ users (unregister s now id uid).2 !! uid
         = (λ usr, User.mk (User.name usr) (User.role usr)
                     (User.university usr)
                     (List.filter
                        (λ x, negb (String.eqb (Attended.event x) id))
                        (User.eventsAttended usr)))
           <$> users s !! uid
       ∧ (∀ usr x, users (unregister s now id uid).2 !! uid = Some usr →
                   x ∈ User.eventsAttended usr → Attended.event x ≠ id)
       ∧ ∀ other, other ≠ uid →
           users (unregister s now id uid).2 !! other = users s !! other).
Proof.
  split.
  - intros Hc. destruct (register1_created_users s now id uid Hc) as [-> [usr Hu]].
    split.
    + exists usr. split; [done |]. by rewrite lookup_alter_eq, Hu.
    + intros other Hne. by rewrite lookup_alter_ne.
  - intros ev _ Hev Hlt. unfold unregister. rewrite Hev.
    destruct (Z.geb_spec now (Event.startDate ev)); [lia |].
    cbn [fst snd update_user save_event users].
    split; [done |]. split; [by rewrite lookup_alter_eq | split].
    + intros usr x. rewrite lookup_alter_eq.
      destruct (users s !! uid) as [usr0|]; [|done]. simpl.
      intros [= <-]. simpl. rewrite list_elem_of_In, filter_In.
      intros [_ Hx%negb_true_iff]. by apply string_eqb_false.
    + intros other Hne. by rewrite lookup_alter_ne.
Qed.

(** Bob registers for the fair through the first handler at time 5, which
    puts the fair into his eventsAttended; his unregister request at time 6
    is answered 200 and takes it out again. *)
Lemma eventsAttended_effects_witness :
  ((∃ usr, users (db (fair_event None None []) []) !! bob = Some usr
           ∧ users registered_fair !! bob
             = Some (User.mk (User.name usr) (User.role usr)
                       (User.university usr)
                       (User.eventsAttended usr ++ [Attended.mk fair 5])))
   ∧ ∀ other, other ≠ bob →
       users registered_fair !! other
       = users (db (fair_event None None []) []) !! other)
  ∧ ((unregister registered_fair 6 fair bob).1
     = Resp 200 "Successfully unregistered from the event"
     ∧ users (unregister registered_fair 6 fair bob).2 !! bob
       = (λ usr, User.mk (User.name usr) (User.role usr)
                   (User.university usr)
                   (List.filter
                      (λ x, negb (String.eqb (Attended.event x) fair))
                      (User.eventsAttended usr)))
         <$> users registered_fair !! bob
     ∧ (∀ usr x,
          users (unregister registered_fair 6 fair bob).2 !! bob = Some usr →
          x ∈ User.eventsAttended usr → Attended.event x ≠ fair)
     ∧ ∀ other, other ≠ bob →
         users (unregister registered_fair 6 fair bob).2 !! other
         = users registered_fair !! other)
  ∧ User.eventsAttended <$> users registered_fair !! bob
    = Some [Attended.mk fair 5]
  ∧ User.eventsAttended
      <$> users (unregister registered_fair 6 fair bob).2 !! bob
    = Some [].
Proof.
  split; [|split; [|split]].
  - apply (proj1 (eventsAttended_effects (db (fair_event None None []) [])
                    5 fair bob)).
    exists (EventRegistration.mk fair (Some "Fair") bob (Some "Bob")
              (Some campus) (Some "Campus") (Some 5)).
    split; vm_compute; reflexivity.
  - apply (proj2 (eventsAttended_effects registered_fair 6 fair bob)
             (fair_event None None [Attendee.mk bob false]));
      [reflexivity | vm_compute; reflexivity | simpl; lia].
  - vm_compute. reflexivity.
  - vm_compute. reflexivity.
Defined.

(** * Further properties *)

(** ** One request, one event *)

Lemma same_settings_refl (ev : Event.t) : same_settings ev ev.
Proof. by repeat split. Qed.

Lemma same_settings_trans (ev1 ev2 ev3 : Event.t) :
  same_settings ev1 ev2 → same_settings ev2 ev3 → same_settings ev1 ev3.
Proof.
  unfold same_settings. intros H1 H2.
  destruct_and!. repeat split; congruence.
Qed.

Lemma event_step_settings (q : Request) (id : string) (ev ev' : Event.t) :
  event_step q id ev ev' → same_settings ev ev'.
Proof.
  intros [-> | [[H _] | H]]; [apply same_settings_refl | done |].
  destruct q; try done. by destruct H as [_ [H _]].
Qed.

Lemma filter_sublist {A : Type} (f : A → bool) (l : list A) :
  List.filter f l `sublist_of` l.
Proof.
  induction l as [|x l IH]; simpl; [constructor |].
  destruct (f x); by constructor.
Qed.

Lemma mark_users (userId : string) (b : bool) (l l' : list Attendee.t) :
  mark userId b l = Some l' → Attendee.user <$> l' = Attendee.user <$> l.
Proof.
  revert l'. induction l as [|a l IH]; intros l' Hm; simpl in Hm; [done |].
  destruct (String.eqb (Attendee.user a) userId).
  - by simplify_eq.
  - destruct (mark userId b l) as [l''|]; [|done]. simplify_eq.
    rewrite !fmap_cons. by rewrite (IH l'').
Qed.

(** The shape shared by all handlers: the event collection is untouched, or
    the event the request names is replaced by a step of it. *)
Lemma step_unchanged (q : Request) (s s' : Db) (id : string) :
  events s' = events s →
  match events s !! id, events s' !! id with
  | Some ev, Some ev' => event_step q id ev ev'
  | None, None => True
  | _, _ => False
  end.
Proof. intros ->. destruct (events s !! id); [by left | done]. Qed.

Lemma step_replaced (q : Request) (s s' : Db) (id0 id : string)
    (ev0 ev0' : Event.t) :
  events s !! id0 = Some ev0 →
  events s' = <[id0 := ev0']> (events s) →
  event_step q id0 ev0 ev0' →
  match events s !! id, events s' !! id with
  | Some ev, Some ev' => event_step q id ev ev'
  | None, None => True
  | _, _ => False
  end.
Proof.
  intros Hev0 -> Hstep. destruct (decide (id0 = id)) as [<- | Hne].
  - by rewrite Hev0, lookup_insert_eq.
  - rewrite lookup_insert_ne by done.
    destruct (events s !! id); [by left | done].
Qed.

(** A register request leaves the events alone, or appends the caller to
    the event it names, which then required registration, was before its
    deadline, below the capacity the handler reads, and without an entry for
    the caller. *)
Lemma register_events_open (h : Handler) (s : Db) now id uid :
  events (register h s now id uid).2 = events s
  ∨ ∃ ev, events s !! id = Some ev
          ∧ Event.isRegistrationRequired ev = true
          ∧ deadline_passed now ev = false
          ∧ at_capacity (capacity_read h ev) ev = false
          ∧ isRegistered uid ev = false
          ∧ events (register h s now id uid).2
            = <[id := push_attendee uid ev]> (events s).
Proof.
  destruct h; simpl; [unfold register1 | unfold register2];
    destruct (events s !! id) as [ev|] eqn:Hev; try (by left);
    destruct (Event.isRegistrationRequired ev) eqn:Hreq; try (by left);
    simpl;
    repeat case_match; simplify_eq; try (by left);
    right; exists ev; done.
Qed.

(** What any request does to any event. *)
Lemma handle_event_step (q : Request) (s : Db) (id : string) :
  match events s !! id, events (handle q s).2 !! id with
  | Some ev, Some ev' => event_step q id ev ev'
  | None, None => True
  | _, _ => False
  end.
Proof.
  destruct q as [h now id0 uid | now id0 uid | caller role id0 uid a
                | caller role id0 uid | id0 uid rating comment | e u]; simpl.
  - destruct (register_events_open h s now id0 uid)
      as [Heq | (ev & Hev & Hreq & Hdl & Hroom & Hnew & Heq)];
      [by apply step_unchanged |].
    eapply step_replaced; [done | done |].
    right. right. split; [done |]. repeat split; try done. by exists uid.
  - unfold unregister.
    destruct (events s !! id0) as [ev|] eqn:Hev; [|by apply step_unchanged].
    destruct (now >=? Event.startDate ev); [by apply step_unchanged |].
    eapply step_replaced; [done | reflexivity |].
    right. left. split; [by repeat split |]. left. split; [done |].
    left. apply filter_sublist.
  - unfold markAttendance.
    destruct (events s !! id0) as [ev|] eqn:Hev; [|by apply step_unchanged].
    destruct (_ && _); [by apply step_unchanged |].
    destruct (mark uid a (Event.attendees ev)) as [l|] eqn:Hm;
      [|by apply step_unchanged].
    eapply step_replaced; [done | reflexivity |].
    right. left. split; [by repeat split |]. left. split; [done |].
    right. simpl. by eapply mark_users.
  - unfold removeAttendee.
    destruct (events s !! id0) as [ev|] eqn:Hev; [|by apply step_unchanged].
    destruct (_ && _); [by apply step_unchanged |].
    destruct (findIndex uid (Event.attendees ev)) as [i|];
      [|by apply step_unchanged].
    eapply step_replaced; [done | reflexivity |].
    right. left. split; [by repeat split |]. left. split; [done |].
    left. apply sublist_delete.
  - unfold submitReview.
    destruct (cast id0) as [oid|]; [|by apply step_unchanged].
    destruct (events s !! oid) as [ev|] eqn:Hev; [|by apply step_unchanged].
    destruct (has_attended uid ev) eqn:Hat; [|by apply step_unchanged].
    simpl.
    destruct (alreadyReviewed uid ev) eqn:Hrev; [by apply step_unchanged |].
    eapply step_replaced; [done | reflexivity |].
    right. left. split; [by repeat split |]. right. split; [done |].
    by exists (Review.mk uid rating comment).
  - apply step_unchanged. unfold createRegistration. by repeat case_match.
Qed.

(** A property of single events kept by every step of a permitted request
    is kept by every sequence of permitted requests. *)
Lemma run_event_invariant (P : Event.t → Prop) (allowed : Request → bool)
    (qs : list Request) (s : Db) :
  (∀ q id ev ev', allowed q = true → event_step q id ev ev' → P ev → P ev') →
  forallb allowed qs = true →
  (∀ id ev, events s !! id = Some ev → P ev) →
  ∀ id ev, events (run qs s) !! id = Some ev → P ev.
Proof.
  intros Hstep. revert s.
  induction qs as [|q qs IH]; intros s Hall Hs; simpl in *; [done |].
  apply andb_prop in Hall as [Hq Hall]. apply IH; [done |].
  intros id ev' Hev'.
  pose proof (handle_event_step q s id) as Hl.
  rewrite Hev' in Hl. destruct (events s !! id) as [ev|] eqn:Hev; [|done].
  eapply Hstep; [done | done |]. by eapply Hs.
Qed.

Lemma forallb_true_all {A : Type} (l : list A) : forallb (λ _, true) l = true.
Proof. by induction l. Qed.

Lemma isRegistered_false (uid : string) (ev : Event.t) :
  isRegistered uid ev = false →
  uid ∉ Attendee.user <$> Event.attendees ev.
Proof.
  unfold isRegistered. intros Hno Hin.
  apply list_elem_of_fmap in Hin as (a & -> & Ha).
  assert (existsb (λ a0, String.eqb (Attendee.user a0) (Attendee.user a))
            (Event.attendees ev) = true) as Hyes; [|congruence].
  apply existsb_elem_of. exists a. split; [done |]. apply String.eqb_refl.
Qed.

Lemma alreadyReviewed_false (uid : string) (ev : Event.t) :
  alreadyReviewed uid ev = false →
  uid ∉ Review.user <$> Event.reviews ev.
Proof.
  unfold alreadyReviewed. intros Hno Hin.
  apply list_elem_of_fmap in Hin as (r & -> & Hr).
  assert (existsb (λ r0, String.eqb (Review.user r0) (Review.user r))
            (Event.reviews ev) = true) as Hyes; [|congruence].
  apply existsb_elem_of. exists r. split; [done |]. apply String.eqb_refl.
Qed.

Lemma NoDup_snoc_fresh {A : Type} (l : list A) (x : A) :
  NoDup l → x ∉ l → NoDup (l ++ [x]).
Proof.
  intros Hl Hx. apply NoDup_app. split; [done |]. split.
  - intros y Hy ->%list_elem_of_singleton. done.
  - apply NoDup_singleton.
Qed.

Lemma attendees_kept_users (ev ev' : Event.t) :
  attendees_kept ev ev' →
  (Attendee.user <$> Event.attendees ev')
    `sublist_of` (Attendee.user <$> Event.attendees ev).
Proof.
  intros [_ [[_ [Hsub | ->]] | [-> _]]]; [by apply fmap_sublist | done..].
Qed.

Lemma event_step_unique_attendees q id (ev ev' : Event.t) :
  event_step q id ev ev' →
  NoDup (Attendee.user <$> Event.attendees ev) →
  NoDup (Attendee.user <$> Event.attendees ev').
Proof.
  intros [-> | [Hkept | Hadd]] Hnd; [done | |].
  - eapply sublist_NoDup; [exact Hnd |]. by apply attendees_kept_users.
  - destruct q; try done.
    destruct Hadd as (_ & _ & _ & _ & _ & _ & (u & Hnew & ->)).
    rewrite fmap_app. apply NoDup_snoc_fresh; [done |].
    by apply isRegistered_false.
Qed.

Lemma event_step_reviews q id (ev ev' : Event.t) :
  event_step q id ev ev' →
  Event.reviews ev' = Event.reviews ev
  ∨ ∃ r, alreadyReviewed (Review.user r) ev = false
         ∧ has_attended (Review.user r) ev = true
         ∧ Event.reviews ev' = Event.reviews ev ++ [r].
Proof.
  intros [-> | [[_ [[-> _] | [_ Hr]]] | Hadd]]; [by left | by left | by right |].
  destruct q; try done. destruct Hadd as (_ & _ & -> & _). by left.
Qed.

(** ** Invariants of the event collection *)

Lemma db_events_lookup (e : Event.t) regs (id : string) (ev : Event.t) :
  events (db e regs) !! id = Some ev → id = fair ∧ ev = e.
Proof. unfold db. simpl. by intros [-> ->]%lookup_singleton_Some. Qed.

(** X1: no request introduces a second attendee entry for a user. If no
    event has two entries for the same user, then after any sequence of
    register (either handler), unregister, mark-attendance,
    remove-attendee, review and stand-alone registration requests no event
    has. *)
Theorem run_unique_attendees (qs : list Request) (s : Db) :
  unique_attendees s → unique_attendees (run qs s).
Proof.
  intros Hs id ev Hev.
  apply (run_event_invariant
           (λ ev, NoDup (Attendee.user <$> Event.attendees ev)) (λ _, true)
           qs s) with id;
    [|apply forallb_true_all | exact Hs | exact Hev].
  intros q id0 ev1 ev2 _. apply event_step_unique_attendees.
Qed.

Lemma run_unique_attendees_witness :
  unique_attendees (run busy_day small_fair).
Proof.
  apply (run_unique_attendees busy_day small_fair).
  intros id ev [_ ->]%db_events_lookup.
  apply (bool_decide_unpack _). vm_compute. reflexivity.
Defined.

(** X2: no sequence of requests gives an event two reviews by one user. *)
Theorem run_unique_reviews (qs : list Request) (s : Db) :
  unique_reviews s → unique_reviews (run qs s).
Proof.
  intros Hs id ev Hev.
  apply (run_event_invariant
           (λ ev, NoDup (Review.user <$> Event.reviews ev)) (λ _, true)
           qs s) with id;
    [|apply forallb_true_all | exact Hs | exact Hev].
  intros q id0 ev1 ev2 _ Hstep Hnd.
  destruct (event_step_reviews _ _ _ _ Hstep) as [-> | (r & Hnew & _ & ->)];
    [done |].
  rewrite fmap_app. apply NoDup_snoc_fresh; [done |].
  by apply alreadyReviewed_false.
Qed.

Lemma run_unique_reviews_witness :
  unique_reviews (run busy_day small_fair).
Proof.
  apply (run_unique_reviews busy_day small_fair).
  intros id ev [_ ->]%db_events_lookup.
  apply (bool_decide_unpack _). vm_compute. reflexivity.
Defined.

Lemma event_step_within_capacity q id (ev ev' : Event.t) (C : Z) :
  by_first_handler q = false →
  event_step q id ev ev' →
  or_num (Event.maxAttendees ev) (Event.capacity ev) = Some C →
  truthy_num C = true →
  Z.of_nat (length (Event.attendees ev)) <= C →
  Z.of_nat (length (Event.attendees ev')) <= C.
Proof.
  intros Hq [-> | [Hkept | Hadd]] Hcap HC Hle; [done | |].
  - apply attendees_kept_users, sublist_length in Hkept.
    rewrite !length_fmap in Hkept. lia.
  - destruct q as [[|] ? ? ?| | | | |]; try done.
    destruct Hadd as (_ & _ & _ & _ & _ & Hroom & (u & _ & ->)).
    simpl in Hroom. rewrite Hcap in Hroom. unfold at_capacity in Hroom.
    rewrite HC in Hroom. simpl in Hroom. rewrite length_app. simpl. lia.
Qed.

(** X3: the capacity bound survives every request that is not a register
    request served by the first handler: if every event with a (truthy)
    effective capacity is within it, it still is after any sequence of
    second-handler registrations, unregistrations, attendance marks,
    removals, reviews and stand-alone registrations. *)
Theorem run_within_capacity (qs : list Request) (s : Db) :
  forallb (λ q, negb (by_first_handler q)) qs = true →
  within_capacity s → within_capacity (run qs s).
Proof.
  intros Hqs Hs id ev' C Hev'.
  revert C.
  apply (run_event_invariant
           (λ ev, ∀ C,
              or_num (Event.maxAttendees ev) (Event.capacity ev) = Some C →
              truthy_num C = true →
              Z.of_nat (length (Event.attendees ev)) <= C)
           (λ q, negb (by_first_handler q)) qs s) with id;
    [| done | | exact Hev'].
  - intros q id0 ev1 ev2 Hq Hstep Hev1 C Hcap HC.
    apply negb_true_iff in Hq.
    pose proof (event_step_settings _ _ _ _ Hstep)
      as (_ & _ & _ & _ & _ & _ & Hc & Hm).
    rewrite Hc, Hm in Hcap.
    eapply event_step_within_capacity; [done | done | done | done |].
    by apply Hev1.
  - intros id0 ev0 Hev0 C0. by apply (Hs id0).
Qed.

Lemma run_within_capacity_witness :
  within_capacity (run busy_day small_fair).
Proof.
  apply (run_within_capacity busy_day small_fair); [reflexivity |].
  intros id ev C [_ ->]%db_events_lookup Hcap _.
  vm_compute in Hcap. injection Hcap as <-. vm_compute. discriminate.
Defined.

(** X4: no request creates or deletes an event, changes an event's settings
    (title, club, university, start date, registration flag, deadline,
    capacity fields), or removes or edits a review: after any sequence of
    requests an event id names an event exactly if it did before, with the
    same settings and with the earlier reviews as a prefix of its
    reviews. *)
Theorem run_events_fixed (qs : list Request) (s : Db) (id : string) :
  match events s !! id, events (run qs s) !! id with
  | Some ev, Some ev' =>
      same_settings ev ev' ∧ Event.reviews ev `prefix_of` Event.reviews ev'
  | None, None => True
  | _, _ => False
  end.
Proof.
  revert s. induction qs as [|q qs IH]; intros s; simpl.
  - destruct (events s !! id); [|done]. split; [apply same_settings_refl | done].
  - pose proof (handle_event_step q s id) as Hq.
    pose proof (IH (handle q s).2) as Hr.
    destruct (events s !! id) as [ev|],
      (events (handle q s).2 !! id) as [ev1|],
      (events (run qs (handle q s).2) !! id) as [ev2|]; try done.
    destruct Hr as [Hs2 Hp2]. split.
    + eapply same_settings_trans; [|done]. by eapply event_step_settings.
    + destruct (event_step_reviews _ _ _ _ Hq) as [Heq | (r & _ & _ & Heq)];
        rewrite Heq in Hp2; [done |].
      by eapply prefix_app_l.
Qed.

(** The two capacity fields of an event, in particular, stay as they are. *)
Lemma run_capacity_fields (qs : list Request) (s : Db) (id : string)
    (ev : Event.t) :
  events s !! id = Some ev →
  ∃ ev', events (run qs s) !! id = Some ev'
         ∧ Event.capacity ev' = Event.capacity ev
         ∧ Event.maxAttendees ev' = Event.maxAttendees ev.
Proof.
  revert s ev. induction qs as [|q qs IH]; intros s ev Hev; simpl.
  - by exists ev.
  - pose proof (handle_event_step q s id) as Hq. rewrite Hev in Hq.
    destruct (events (handle q s).2 !! id) as [ev1|] eqn:Hev1; [|done].
    apply event_step_settings in Hq as (_ & _ & _ & _ & _ & _ & Hc & Hm).
    destruct (IH _ _ Hev1) as (ev2 & Hev2 & Hc2 & Hm2).
    exists ev2. split; [done |]. split; congruence.
Qed.

(** ** The Registration Store *)

(** A register request adds no record, or one record for the pair it names,
    which had none. *)
Lemma register_registrations (h : Handler) (s : Db) now id uid :
  registrations (register h s now id uid).2 = registrations s
  ∨ ∃ r, registrations (register h s now id uid).2 = registrations s ++ [r]
         ∧ matches id uid r = true
         ∧ existingRegistration s id uid = false.
Proof.
  destruct h; simpl; [unfold register1 | unfold register2];
    repeat case_match; simplify_eq; try (by left);
    right; eexists; (split; [reflexivity |]);
    (split; [by eapply new_registration_matches | done]).
Qed.

Lemma handle_registrations (q : Request) (s : Db) :
  registrations (handle q s).2 = registrations s
  ∨ ∃ r, registrations (handle q s).2 = registrations s ++ [r]
         ∧ (is_createRegistration q = false →
            existingRegistration s (EventRegistration.event r)
              (EventRegistration.user r) = false).
Proof.
  destruct q as [h now id uid | now id uid | caller role id uid a
                | caller role id uid | id uid rating comment | e u]; simpl.
  - destruct (register_registrations h s now id uid)
      as [Heq | (r & Heq & Hm & Hnone)]; [by left |].
    right. exists r. split; [done |]. intros _.
    apply andb_prop in Hm as [->%string_eqb_true ->%string_eqb_true]. done.
  - left. unfold unregister. by repeat case_match.
  - left. unfold markAttendance. by repeat case_match.
  - left. unfold removeAttendee. by repeat case_match.
  - left. unfold submitReview. by repeat case_match.
  - unfold createRegistration. repeat case_match; try (by left).
    right. eexists. split; [reflexivity | done].
Qed.

(** X5: the Registration Store only grows, and only at its end: after any
    sequence of requests the earlier list of records is a prefix of the
    list. No request deletes or edits a record; in particular neither
    unregistering nor removal by the club president does. *)
Theorem run_registrations_prefix (qs : list Request) (s : Db) :
  registrations s `prefix_of` registrations (run qs s).
Proof.
  revert s. induction qs as [|q qs IH]; intros s; simpl; [done |].
  etrans; [|apply IH].
  destruct (handle_registrations q s) as [-> | (r & -> & _)]; [done |].
  by apply prefix_app_r.
Qed.

Lemma existingRegistration_elem (s : Db) (id uid : string) :
  existingRegistration s id uid = false →
  (id, uid) ∉ (λ r, (EventRegistration.event r, EventRegistration.user r))
              <$> registrations s.
Proof.
  unfold existingRegistration. intros Hno Hin.
  apply list_elem_of_fmap in Hin as (r & Heq & Hr).
  assert (existsb (matches id uid) (registrations s) = true) as Hyes;
    [|congruence].
  apply existsb_elem_of. exists r. split; [done |].
  unfold matches. injection Heq as -> ->. by rewrite !String.eqb_refl.
Qed.

(** X6: apart from the stand-alone endpoint, no request gives a pair
    (event, user) a second record: if the records are pairwise for different
    pairs, they still are after any sequence of register (either handler),
    unregister, mark-attendance, remove-attendee and review requests. *)
Theorem run_unique_records (qs : list Request) (s : Db) :
  forallb (λ q, negb (is_createRegistration q)) qs = true →
  unique_records s → unique_records (run qs s).
Proof.
  revert s. induction qs as [|q qs IH]; intros s Hqs Hs; simpl in *; [done |].
  apply andb_prop in Hqs as [Hq%negb_true_iff Hqs]. apply IH; [done |].
  unfold unique_records in *.
  destruct (handle_registrations q s) as [-> | (r & -> & Hnone)]; [done |].
  rewrite fmap_app. apply NoDup_snoc_fresh; [done |].
  apply existingRegistration_elem. by apply Hnone.
Qed.

Lemma run_unique_records_witness :
  unique_records (run busy_day small_fair).
Proof.
  apply (run_unique_records busy_day small_fair); [reflexivity |].
  apply (bool_decide_unpack _). vm_compute. reflexivity.
Defined.

(** A record that exists keeps existing. *)
Lemma run_existingRegistration (qs : list Request) (s : Db) (id uid : string) :
  existingRegistration s id uid = true →
  existingRegistration (run qs s) id uid = true.
Proof.
  revert s. induction qs as [|q qs IH]; intros s Hrec; simpl; [done |].
  apply IH. unfold existingRegistration in *.
  destruct (handle_registrations q s) as [-> | (r & -> & _)]; [done |].
  by rewrite existsb_app, Hrec.
Qed.

Lemma register2_existing (s : Db) now id uid :
  existingRegistration s id uid = true →
  (register2 s now id uid).2 = s
  ∧ status (register2 s now id uid).1 ≠ 201
  ∧ status (register2 s now id uid).1 ≠ 500.
Proof.
  unfold register2. intros ->. by repeat case_match.
Qed.

(** X7: once the Registration Store holds a record for (event, user), the
    second handler never registers that user for that event again, whatever
    requests are served in between (unregistering, removal by the president,
    anything): its answer is a refusal, never 201 nor 500, and it writes
    nothing. *)
Theorem recorded_never_registered_again (qs : list Request) (s : Db)
    (now : Z) (id uid : string) :
  existingRegistration s id uid = true →
  (register2 (run qs s) now id uid).2 = run qs s
  ∧ status (register2 (run qs s) now id uid).1 ≠ 201
  ∧ status (register2 (run qs s) now id uid).1 ≠ 500.
Proof.
  intros Hrec. apply register2_existing. by apply run_existingRegistration.
Qed.

(** Alice has a record, is removed from the attendees by the president
    during the day, and asks to register again. *)
Lemma recorded_never_registered_again_witness :
  (register2 (run busy_day small_fair) 7 fair alice).2 = run busy_day small_fair
  ∧ status (register2 (run busy_day small_fair) 7 fair alice).1 ≠ 201
  ∧ status (register2 (run busy_day small_fair) 7 fair alice).1 ≠ 500.
Proof.
  apply (recorded_never_registered_again busy_day small_fair 7 fair alice).
  vm_compute. reflexivity.
Defined.

(** ** The first register handler *)

(** X8: the first register handler never answers 201. When it has carried
    out the registration (record added to the Registration Store), its
    answer is 500 "Registration failed. Please try again.". *)
Theorem register1_never_201 (s : Db) (now : Z) (id uid : string) :
  status (register1 s now id uid).1 ≠ 201
  ∧ (registration_created s (register1 s now id uid).2 id uid →
     (register1 s now id uid).1
     = Resp 500 "Registration failed. Please try again.").
Proof.
  unfold register1, registration_created. split.
  - repeat case_match; simplify_eq; type_errors; done.
  - intros (r & Hr & _).
    repeat case_match; simplify_eq; try (by apply snoc_not_same in Hr); done.
Qed.

Lemma register1_never_201_witness :
  (register1 (db (fair_event None None []) []) 5 fair bob).1
  = Resp 500 "Registration failed. Please try again.".
Proof.
  apply (proj2 (register1_never_201 (db (fair_event None None []) [])
                  5 fair bob)).
  exists (EventRegistration.mk fair (Some "Fair") bob (Some "Bob")
            (Some campus) (Some "Campus") (Some 5)).
  split; vm_compute; reflexivity.
Defined.

(** ** Users, clubs and universities *)

Lemma handle_users (q : Request) (s : Db) :
  clubs (handle q s).2 = clubs s
  ∧ universities (handle q s).2 = universities s
  ∧ (users (handle q s).2 = users s
     ∨ ∃ uid f, users (handle q s).2 = alter f uid (users s)
                ∧ ∀ u, User.name (f u) = User.name u
                       ∧ User.role (f u) = User.role u
                       ∧ User.university (f u) = User.university u).
Proof.
  destruct q as [[|] now id uid | now id uid | caller role id uid a
                | caller role id uid | id uid rating comment | e u]; simpl.
  - unfold register1.
    repeat case_match; simplify_eq; (split; [done |]); (split; [done |]);
      try (by left); right; by eexists uid, _.
  - unfold register2.
    repeat case_match; simplify_eq; (split; [done |]); (split; [done |]);
      by left.
  - unfold unregister.
    repeat case_match; simplify_eq; (split; [done |]); (split; [done |]);
      try (by left); right; by eexists uid, _.
  - unfold markAttendance. repeat case_match; simplify_eq; auto.
  - unfold removeAttendee. repeat case_match; simplify_eq; auto.
  - unfold submitReview. repeat case_match; simplify_eq; auto.
  - unfold createRegistration. repeat case_match; simplify_eq; auto.
Qed.

(** X9: no request creates or deletes a user, a club or a university, or
    changes a user's name, role or university: after any sequence of
    requests the clubs and universities are the same, and a user id names a
    user exactly if it did before, with the same name, role and university
    (only eventsAttended can differ). *)
Theorem run_users_frame (qs : list Request) (s : Db) :
  clubs (run qs s) = clubs s
  ∧ universities (run qs s) = universities s
  ∧ ∀ uid,
      match users s !! uid, users (run qs s) !! uid with
      | Some u, Some u' =>
          User.name u' = User.name u ∧ User.role u' = User.role u
          ∧ User.university u' = User.university u
      | None, None => True
      | _, _ => False
      end.
Proof.
  revert s. induction qs as [|q qs IH]; intros s; simpl.
  - repeat split; try done. intros uid. by destruct (users s !! uid).
  - destruct (IH (handle q s).2) as (-> & -> & Hu).
    destruct (handle_users q s) as (-> & -> & Hq).
    repeat split; try done. intros uid. specialize (Hu uid).
    destruct Hq as [Heq | (uid0 & f & Heq & Hf)]; rewrite Heq in Hu;
      [done |].
    destruct (decide (uid0 = uid)) as [-> | Hne].
    + rewrite lookup_alter_eq in Hu.
      destruct (users s !! uid) as [u|]; simpl in Hu; [|done].
      destruct (users (run qs (handle q s).2) !! uid) as [u'|]; [|done].
      destruct (Hf u) as (<- & <- & <-). done.
    + by rewrite lookup_alter_ne in Hu.
Qed.

(** ** Where attendees come from *)

Lemma may_add_settings (id : string) (ev ev' : Event.t) (q : Request) :
  same_settings ev ev' → may_add id ev' q = may_add id ev q.
Proof.
  intros (_ & _ & _ & _ & Hreq & Hdl & _). destruct q; try done.
  unfold may_add, deadline_passed. by rewrite Hreq, Hdl.
Qed.

Lemma forallb_pointwise {A : Type} (f g : A → bool) (l : list A) :
  (∀ x, f x = g x) → forallb f l = forallb g l.
Proof. intros Hfg. induction l as [|x l IH]; simpl; [done |]. by rewrite Hfg, IH. Qed.

Lemma handle_not_added (q : Request) (s : Db) (id : string) (ev : Event.t) :
  events s !! id = Some ev →
  may_add id ev q = false →
  ∃ ev', events (handle q s).2 !! id = Some ev'
         ∧ same_settings ev ev'
         ∧ (Attendee.user <$> Event.attendees ev')
             `sublist_of` (Attendee.user <$> Event.attendees ev).
Proof.
  intros Hev Hq. pose proof (handle_event_step q s id) as Hstep.
  rewrite Hev in Hstep.
  destruct (events (handle q s).2 !! id) as [ev'|]; [|done].
  exists ev'. split; [done |].
  split; [by eapply event_step_settings |].
  destruct Hstep as [-> | [Hkept | Hadd]]; [done | |].
  - by apply attendees_kept_users.
  - destruct q; try done. destruct Hadd as (-> & _ & _ & Hreq & Hdl & _).
    simpl in Hq. by rewrite String.eqb_refl, Hreq, Hdl in Hq.
Qed.

(** X10: attendees are only ever added by a register request for that event
    made while the event requires registration and its deadline has not
    passed. Over any sequence of requests without such a request, the users
    among the attendees of the event only get fewer: what is there at the
    end is a sublist of what was there at the start. So an event that does
    not require registration never gains an attendee, and no event gains one
    after its deadline. *)
Theorem run_attendees_not_added (qs : list Request) (s : Db) (id : string)
    (ev : Event.t) :
  events s !! id = Some ev →
  forallb (λ q, negb (may_add id ev q)) qs = true →
  ∃ ev', events (run qs s) !! id = Some ev'
         ∧ (Attendee.user <$> Event.attendees ev')
             `sublist_of` (Attendee.user <$> Event.attendees ev).
Proof.
  revert s ev. induction qs as [|q qs IH]; intros s ev Hev Hqs; simpl in *.
  - by exists ev.
  - apply andb_prop in Hqs as [Hq%negb_true_iff Hqs].
    destruct (handle_not_added q s id ev Hev Hq) as (ev1 & Hev1 & Hset & Hsub).
    destruct (IH (handle q s).2 ev1 Hev1) as (ev2 & Hev2 & Hsub2).
    + rewrite <- Hqs. apply forallb_pointwise.
      intros q'. by rewrite (may_add_settings id ev ev1 q').
    + exists ev2. split; [done |]. by etrans.
Qed.

Lemma run_attendees_not_added_witness :
  ∃ ev', events (run late_day closed_fair) !! fair = Some ev'
         ∧ (Attendee.user <$> Event.attendees ev')
             `sublist_of` [alice].
Proof.
  apply (run_attendees_not_added late_day closed_fair fair
           (Event.mk "Fair" (Some chess) (Some campus) 1000 true (Some 10)
              None None [Attendee.mk alice false] []));
    vm_compute; reflexivity.
Defined.

(** ** Attendance and removal by the president *)

Lemma not_president_false (s : Db) (ev : Event.t) (caller : string) :
  not_president (populate_club s (Event.club ev)) caller = false →
  ∃ c, populate_club s (Event.club ev) = Some c
       ∧ Club.president c = Some caller.
Proof.
  unfold not_president. destruct (populate_club s (Event.club ev)) as [c|];
    [|done].
  destruct (Club.president c) as [p|] eqn:Hp; [|done].
  intros Hp'%negb_false_iff%string_eqb_true. subst. by exists c.
Qed.

Lemma authorized_cases (s : Db) (ev : Event.t) (caller role : string) :
  not_president (populate_club s (Event.club ev)) caller
  && negb (String.eqb role "Administrator") = false →
  role = "Administrator"
  ∨ ∃ c, populate_club s (Event.club ev) = Some c
         ∧ Club.president c = Some caller.
Proof.
  intros [H | H]%andb_false_iff.
  - right. by apply not_president_false.
  - left. by apply negb_false_iff, string_eqb_true in H.
Qed.

Lemma findIndex_split (userId : string) (l : list Attendee.t) (i : nat) :
  findIndex userId l = Some i →
  ∃ l1 a l2, l = l1 ++ a :: l2
             ∧ Attendee.user a = userId
             ∧ (∀ b, b ∈ l1 → Attendee.user b ≠ userId)
             ∧ delete i l = l1 ++ l2.
Proof.
  revert i. induction l as [|a l IH]; intros i Hi; simpl in Hi; [done |].
  destruct (String.eqb (Attendee.user a) userId) eqn:Ha.
  - simplify_eq. exists [], a, l. apply string_eqb_true in Ha.
    repeat split; try done. intros b Hb. by apply not_elem_of_nil in Hb.
  - destruct (findIndex userId l) as [j|]; [|done]. simpl in Hi.
    simplify_eq.
    destruct (IH j eq_refl) as (l1 & a' & l2 & -> & Hu & Hl1 & Hdel).
    exists (a :: l1), a', l2. repeat split; try done.
    + intros b [-> | Hb]%elem_of_cons; [by apply string_eqb_false | by apply Hl1].
    + simpl. by rewrite Hdel.
Qed.

Lemma mark_split (userId : string) (flag : bool) (l l' : list Attendee.t) :
  mark userId flag l = Some l' →
  ∃ l1 a l2, l = l1 ++ a :: l2
             ∧ Attendee.user a = userId
             ∧ (∀ b, b ∈ l1 → Attendee.user b ≠ userId)
             ∧ l' = l1 ++ Attendee.mk userId flag :: l2.
Proof.
  revert l'. induction l as [|a l IH]; intros l' Hm; simpl in Hm; [done |].
  destruct (String.eqb (Attendee.user a) userId) eqn:Ha.
  - simplify_eq. exists [], a, l. apply string_eqb_true in Ha.
    repeat split; try done.
    + intros b Hb. by apply not_elem_of_nil in Hb.
    + simpl. by rewrite Ha.
  - destruct (mark userId flag l) as [l''|]; [|done]. simplify_eq.
    destruct (IH l'' eq_refl) as (l1 & a' & l2 & -> & Hu & Hl1 & ->).
    exists (a :: l1), a', l2. repeat split; try done.
    intros b [-> | Hb]%elem_of_cons; [by apply string_eqb_false | by apply Hl1].
Qed.

(** X11: a removal answered 200 was asked by an Administrator or by the
    president of the event's club, and it removed exactly the first attendee
    entry of that user: the entries before and after it are kept in order.
    Nothing else is written: users (their eventsAttended) and the
    Registration Store are as before. *)
Theorem removeAttendee_removes_first (s s' : Db) (caller role : string)
    (id userId : string) :
  removeAttendee s caller role id userId = (Resp 200 "", s') →
  ∃ ev l1 a l2,
    events s !! id = Some ev
    ∧ (role = "Administrator"
       ∨ ∃ c, populate_club s (Event.club ev) = Some c
              ∧ Club.president c = Some caller)
    ∧ Event.attendees ev = l1 ++ a :: l2
    ∧ Attendee.user a = userId
    ∧ (∀ b, b ∈ l1 → Attendee.user b ≠ userId)
    ∧ s' = mkDb (<[id := Event.with_attendees (l1 ++ l2) ev]> (events s))
             (users s) (clubs s) (universities s) (registrations s).
Proof.
  unfold removeAttendee. intros Hrun.
  destruct (events s !! id) as [ev|] eqn:Hev; [|done].
  destruct (_ && _) eqn:Hauth; [done |].
  destruct (findIndex userId (Event.attendees ev)) as [i|] eqn:Hi; [|done].
  destruct (findIndex_split _ _ _ Hi) as (l1 & a & l2 & Hl & Hu & Hl1 & Hdel).
  exists ev, l1, a, l2. repeat split; try done.
  - by eapply authorized_cases.
  - rewrite Hdel in Hrun. by simplify_eq.
Qed.

(** Bob, president of the chess club, removes Alice from the fair. *)
Lemma removeAttendee_removes_first_witness :
  ∃ ev l1 a l2,
    events small_fair !! fair = Some ev
    ∧ ("Club Admin" = "Administrator"
       ∨ ∃ c, populate_club small_fair (Event.club ev) = Some c
              ∧ Club.president c = Some bob)
    ∧ Event.attendees ev = l1 ++ a :: l2
    ∧ Attendee.user a = alice
    ∧ (∀ b, b ∈ l1 → Attendee.user b ≠ alice)
    ∧ (removeAttendee small_fair bob "Club Admin" fair alice).2
      = mkDb (<[fair := Event.with_attendees (l1 ++ l2) ev]>
                (events small_fair))
          (users small_fair) (clubs small_fair) (universities small_fair)
          (registrations small_fair).
Proof.
  apply (removeAttendee_removes_first small_fair _ bob "Club Admin" fair
           alice).
  vm_compute. reflexivity.
Defined.

(** X12: an attendance mark answered 200 was asked by an Administrator or
    by the president of the event's club, and it set the flag of exactly the
    first attendee entry of that user to the requested value; every other
    entry, and everything outside the event, is as before. *)
Theorem markAttendance_marks_first (s s' : Db) (caller role : string)
    (id userId : string) (flag : bool) :
  markAttendance s caller role id userId flag = (Resp 200 "", s') →
  ∃ ev l1 a l2,
    events s !! id = Some ev
    ∧ (role = "Administrator"
       ∨ ∃ c, populate_club s (Event.club ev) = Some c
              ∧ Club.president c = Some caller)
    ∧ Event.attendees ev = l1 ++ a :: l2
    ∧ Attendee.user a = userId
    ∧ (∀ b, b ∈ l1 → Attendee.user b ≠ userId)
    ∧ s' = mkDb (<[id := Event.with_attendees
                           (l1 ++ Attendee.mk userId flag :: l2) ev]>
                   (events s))
             (users s) (clubs s) (universities s) (registrations s).
Proof.
  unfold markAttendance. intros Hrun.
  destruct (events s !! id) as [ev|] eqn:Hev; [|done].
  destruct (_ && _) eqn:Hauth; [done |].
  destruct (mark userId flag (Event.attendees ev)) as [l|] eqn:Hm; [|done].
  destruct (mark_split _ _ _ _ Hm) as (l1 & a & l2 & Hl & Hu & Hl1 & ->).
  exists ev, l1, a, l2. repeat split; try done.
  - by eapply authorized_cases.
  - by simplify_eq.
Qed.

Lemma markAttendance_marks_first_witness :
  ∃ ev l1 a l2,
    events small_fair !! fair = Some ev
    ∧ ("Club Admin" = "Administrator"
       ∨ ∃ c, populate_club small_fair (Event.club ev) = Some c
              ∧ Club.president c = Some bob)
    ∧ Event.attendees ev = l1 ++ a :: l2
    ∧ Attendee.user a = alice
    ∧ (∀ b, b ∈ l1 → Attendee.user b ≠ alice)
    ∧ (markAttendance small_fair bob "Club Admin" fair alice true).2
      = mkDb (<[fair := Event.with_attendees
                          (l1 ++ Attendee.mk alice true :: l2) ev]>
                (events small_fair))
          (users small_fair) (clubs small_fair) (universities small_fair)
          (registrations small_fair).
Proof.
  apply (markAttendance_marks_first small_fair _ bob "Club Admin" fair alice
           true).
  vm_compute. reflexivity.
Defined.

(** ** Deleting an event *)

Lemma isOrganizer_true (organizers : option (list string)) (caller : string) :
  isOrganizer organizers caller = true →
  ∃ l, organizers = Some l ∧ caller ∈ l.
Proof.
  unfold isOrganizer. destruct organizers as [l|]; [|done].
  intros (org & Hin & ->%string_eqb_true)%existsb_elem_of. by exists l.
Qed.

(** X13: a deletion answered 200 was asked by an Administrator, by the
    president of the event's club or by one of the event's organizers. It
    removes the event and nothing else: the records of the Registration
    Store for that event and the users' eventsAttended entries stay behind.
    From then on both register handlers answer "Event not found" for that
    id, and the registration listing shows those records without an event
    title. *)
Theorem deleteEvent_orphans (organizers : gmap string (list string))
    (s s' : Db) (caller role : string) (id : string) :
  deleteEvent organizers s caller role id
  = (Resp 200 "Event deleted successfully", s') →
  (∃ ev, events s !! id = Some ev
         ∧ (role = "Administrator"
            ∨ (∃ c, populate_club s (Event.club ev) = Some c
                    ∧ Club.president c = Some caller)
            ∨ ∃ l, organizers !! id = Some l ∧ caller ∈ l))
  ∧ s' = mkDb (delete id (events s)) (users s) (clubs s) (universities s)
           (registrations s)
  ∧ (∀ h now uid, register h s' now id uid = (event_not_found, s'))
  ∧ ∀ r, r ∈ registrations s' → EventRegistration.event r = id →
         Formatted.event (format s' r) = None.
Proof.
  unfold deleteEvent. intros Hrun.
  destruct (events s !! id) as [ev|] eqn:Hev; [|done].
  destruct (_ && _) eqn:Hauth; [done |]. simplify_eq.
  split; [|split; [done | split]].
  - exists ev. split; [done |].
    apply andb_false_iff in Hauth as [[H | H]%andb_false_iff | H].
    + left. by apply negb_false_iff, string_eqb_true in H.
    + right. left. apply not_president_false.
      by apply negb_false_iff, negb_true_iff in H.
    + right. right. apply isOrganizer_true. by apply negb_false_iff in H.
  - intros h now uid.
    destruct h; simpl; [unfold register1 | unfold register2];
      unfold delete_event; simpl; by rewrite lookup_delete_eq.
  - intros r _ Hr. unfold format, delete_event. simpl.
    by rewrite Hr, lookup_delete_eq.
Qed.

(** Bob deletes the fair; Alice's record stays. *)
Lemma deleteEvent_orphans_witness :
  (deleteEvent ∅ small_fair bob "Club Admin" fair).2
  = mkDb (delete fair (events small_fair)) (users small_fair)
      (clubs small_fair) (universities small_fair)
      (registrations small_fair).
Proof.
  apply (deleteEvent_orphans ∅ small_fair _ bob "Club Admin" fair).
  vm_compute. reflexivity.
Defined.

(** ** Creating an event *)

Lemma may_create_spec (club : Club.t) (members : list string)
    (user : ReqUser.t) :
  may_create club members user = true
  ↔ ReqUser.role user = "Administrator"
    ∨ (ReqUser.role user = "Club Admin"
       ∧ Club.president club = Some (ReqUser.id user))
    ∨ (ReqUser.role user ≠ "Administrator"
       ∧ ReqUser.role user ≠ "Club Admin"
       ∧ ReqUser.id user ∈ members).
Proof.
  unfold may_create.
  destruct (String.eqb_spec (ReqUser.role user) "Administrator") as [Ha|Ha].
  { split; [by left | done]. }
  destruct (String.eqb_spec (ReqUser.role user) "Club Admin") as [Hc|Hc].
  - destruct (Club.president club) as [p|].
    + rewrite string_eqb_true. split.
      * intros ->. right. by left.
      * intros [? | [[_ [= ->]] | (_ & ? & _)]]; done.
    + split; [done |]. intros [? | [[_ ?] | (_ & ? & _)]]; done.
  - rewrite existsb_elem_of. split.
    + intros (m & Hm & ->%string_eqb_true). right. by right.
    + intros [? | [[? _] | (_ & _ & Hm)]]; try done.
      exists (ReqUser.id user). split; [done |]. apply String.eqb_refl.
Qed.

(** X14: who may create an event. The answer is 201 exactly when the club
    exists, its university is known and is the caller's, and the caller is
    an Administrator, or a Club Admin who is the club's president, or has
    any other role and is a member of the club. A Club Admin who is only a
    member is refused, and so is an Administrator of another university. *)
Theorem createEvent_authorization (members : gmap string (list string))
    (club_university : gmap string string) (s : Db) (user : ReqUser.t)
    (body : NewEvent.t) (_id : string) :
  status (createEvent members club_university s user body _id).1 = 201
  ↔ ∃ club uni,
      clubs s !! NewEvent.organizer body = Some club
      ∧ club_university !! NewEvent.organizer body = Some uni
      ∧ is_Some (universities s !! uni)
      ∧ ReqUser.university user = Some uni
      ∧ (ReqUser.role user = "Administrator"
         ∨ (ReqUser.role user = "Club Admin"
            ∧ Club.president club = Some (ReqUser.id user))
         ∨ (ReqUser.role user ≠ "Administrator"
            ∧ ReqUser.role user ≠ "Club Admin"
            ∧ ReqUser.id user
              ∈ default [] (members !! NewEvent.organizer body))).
Proof.
  unfold createEvent, populate_university. split.
  - intros Hst.
    destruct (clubs s !! NewEvent.organizer body) as [club|]; [|done].
    destruct (club_university !! NewEvent.organizer body) as [uni|];
      [|done].
    destruct (universities s !! uni) as [n|] eqn:Hn; [|done].
    destruct (ReqUser.university user) as [u|]; [|done].
    destruct (String.eqb_spec uni u) as [Heq | ?]; [subst u | done].
    simpl in Hst.
    destruct (may_create _ _ _) eqn:Hmay; simpl in Hst; [|done].
    exists club, uni. repeat split; try done. by apply may_create_spec.
  - intros (club & uni & -> & -> & [n ->] & -> & Hmay%may_create_spec).
    by rewrite String.eqb_refl, Hmay.
Qed.

(** X15: an event created through this route has its limit in
    [maxAttendees] and no [capacity] field, so the first register handler
    never refuses anybody for capacity on it: whatever requests follow the
    creation, its answer to a register request for that event is never
    "Event is at full capacity". *)
Theorem created_event_never_full (members : gmap string (list string))
    (club_university : gmap string string) (s s1 : Db) (user : ReqUser.t)
    (body : NewEvent.t) (_id : string) (qs : list Request) (now : Z)
    (uid : string) :
  createEvent members club_university s user body _id
  = (Resp 201 "Event created successfully", s1) →
  (∃ ev, events (run qs s1) !! _id = Some ev
         ∧ Event.maxAttendees ev = NewEvent.capacity body
         ∧ Event.capacity ev = None)
  ∧ (register1 (run qs s1) now _id uid).1 ≠ full_capacity.
Proof.
  unfold createEvent. intros Hrun.
  repeat case_match; simplify_eq.
  match goal with |- context [run qs (save_event _ ?e s)] =>
    destruct (run_capacity_fields qs (save_event _id e s) _id e)
      as (ev & Hev & Hc & Hm);
      [unfold save_event; simpl; apply lookup_insert_eq |]
  end.
  simpl in Hc, Hm. split; [by exists ev |].
  unfold register1. rewrite Hev. unfold at_capacity. rewrite Hc.
  repeat case_match; simplify_eq; type_errors; done.
Qed.

(** The chess club belongs to the campus; Bob, its president and a Club
    Admin of the campus, creates a match limited to one attendee; Alice is
    registered, and Bob's own request is still not refused for capacity. *)
Lemma created_event_never_full_witness :
  (register1
     (run [Register First 5 "64e000000000000000000002" alice]
        (createEvent ∅ {[chess := campus]} small_fair
           (ReqUser.mk bob "Club Admin" (Some campus))
           (NewEvent.mk "Match" chess 2000 (Some 1) true None)
           "64e000000000000000000002").2)
     6 "64e000000000000000000002" bob).1
  ≠ full_capacity.
Proof.
  apply (created_event_never_full ∅ {[chess := campus]} small_fair _
           (ReqUser.mk bob "Club Admin" (Some campus))
           (NewEvent.mk "Match" chess 2000 (Some 1) true None)
           "64e000000000000000000002"
           [Register First 5 "64e000000000000000000002" alice] 6 bob).
  vm_compute. reflexivity.
Defined.

(** ** Reading back *)

(** X16: a review that was accepted is read back. After SubmitReview has
    answered 200, the review listing of the event is the listing from
    before followed by the new review, with the reviewer's id and name (or
    null if there is no such user), the rating and the comment. *)
Theorem getReviews_after_submit (s s' : Db) (id uid : string) (rating : Z)
    (comment : string) :
  submitReview s id uid rating comment = (review_added, s') →
  ∃ old,
    getReviews s id = inr old
    ∧ getReviews s' id
      = inr (old ++ [ReviewView.mk (populate_user s uid) rating comment]).
Proof.
  unfold submitReview, getReviews. intros Hrun.
  destruct (cast id) as [oid|]; [|done].
  destruct (events s !! oid) as [ev|] eqn:Hev; [|done].
  destruct (has_attended uid ev); [|done]. simpl in Hrun.
  destruct (alreadyReviewed uid ev); [done |]. simplify_eq.
  eexists. split; [reflexivity |].
  unfold save_event. cbn [events]. rewrite lookup_insert_eq.
  cbn [Event.with_reviews Event.reviews]. by rewrite map_app.
Qed.

Lemma getReviews_after_submit_witness :
  ∃ old,
    getReviews attended_fair fair = inr old
    ∧ getReviews (submitReview attended_fair fair alice 5 "Great").2 fair
      = inr (old ++ [ReviewView.mk (populate_user attended_fair alice) 5
                       "Great"]).
Proof.
  apply (getReviews_after_submit attended_fair _ fair alice 5 "Great").
  vm_compute. reflexivity.
Defined.

Lemma format_push (s : Db) (id uid : string) (ev : Event.t)
    (k : Db → Db) (r : EventRegistration.t) :
  events s !! id = Some ev →
  (∀ x, events (k x) = events x) →
  (∀ x, universities (k x) = universities x) →
  format (k (save_event id (push_attendee uid ev) s)) r = format s r.
Proof.
  intros Hev Hk Hu. unfold format, populate_university.
  rewrite Hk, Hu. simpl. f_equal.
  destruct (decide (id = EventRegistration.event r)) as [<- | Hne].
  - by rewrite lookup_insert_eq, Hev.
  - by rewrite lookup_insert_ne.
Qed.

(** X17: a registration accepted by the second handler shows in the
    registration listing as one more line at the end: the student's name,
    the name of the student's own university, the event's title and the
    time of the request. The lines before it are unchanged. *)
Theorem listRegistrations_after_register (s s' : Db) (now : Z)
    (id uid : string) :
  register2 s now id uid = (registered_successfully, s') →
  ∃ ev usr i n,
    events s !! id = Some ev
    ∧ users s !! uid = Some usr
    ∧ User.university usr = Some i
    ∧ universities s !! i = Some n
    ∧ listRegistrations s'
      = listRegistrations s
        ++ [Formatted.mk (Some (User.name usr)) (Some n)
              (Some (Event.title ev)) (Some now)].
Proof.
  unfold register2. intros Hrun.
  destruct (events s !! id) as [ev|] eqn:Hev; [|done].
  repeat case_match; simplify_eq; type_errors; try done.
  match goal with H : new_registration _ _ _ _ _ _ _ = Ok _ |- _ =>
    unfold new_registration, populate_university in H; simpl in H;
    destruct (users s !! uid) as [usr|] eqn:Husr; [|done];
    destruct (User.university usr) as [i|] eqn:Hi; [|done];
    destruct (universities s !! i) as [n|] eqn:Hn; [|done];
    simplify_eq
  end.
  exists ev, usr, i, n. repeat split; try done.
  unfold listRegistrations, save_registration. cbn [registrations].
  rewrite map_app. f_equal.
  - apply map_ext. intros r.
    by apply (format_push s id uid ev (λ x, x)).
  - unfold format, populate_university. simpl.
    by rewrite Hn, lookup_insert_eq.
Qed.

(** Bob registers for the fair. *)
Lemma listRegistrations_after_register_witness :
  ∃ ev usr i n,
    events small_fair !! fair = Some ev
    ∧ users small_fair !! bob = Some usr
    ∧ User.university usr = Some i
    ∧ universities small_fair !! i = Some n
    ∧ listRegistrations (register2 small_fair 5 fair bob).2
      = listRegistrations small_fair
        ++ [Formatted.mk (Some (User.name usr)) (Some n)
              (Some (Event.title ev)) (Some 5)].
Proof.
  apply (listRegistrations_after_register small_fair _ 5 fair bob).
  vm_compute. reflexivity.
Defined.
